(** * Discord Mini App Framework: token-exchange server, client
      authentication sequence and CDN URL builders

    A shallow embedding of
      - [packages/server/src/app.ts]  (Express application),
      - [packages/client/src/main.ts] (embedded client),
    followed by the properties stated about them.

    Conventions.
      - JavaScript strings are [string]s (sequences of code units below 256).
      - The JavaScript [number] type is kept abstract: the code only converts
        numbers to booleans and to strings, so these two conversions are the
        section variables [number_truthy] and [number_to_string].  HTTP
        status codes, which are integers, are in [Z].
      - A promise that rejects and a statement that throws are both a
        [Throw] completion. *)

From Stdlib Require Import ZArith List String Ascii Bool Lia.
From Stdlib Require Import DecimalString.
Import ListNotations.

Local Open Scope string_scope.
Local Open Scope Z_scope.

Set Implicit Arguments.

(* ===================================================================== *)
(** ** JavaScript values                                                  *)
(* ===================================================================== *)

Module Js.

(** An [Error] object: its [name] and its [message]. *)
Record error : Type := mkError { err_name : string; err_message : string }.

Definition TypeError (msg : string) : error := mkError "TypeError" msg.
Definition SyntaxError (msg : string) : error := mkError "SyntaxError" msg.
Definition Error (msg : string) : error := mkError "Error" msg.

(** Outcome of evaluating an expression or awaiting a promise. *)
Inductive completion (A : Type) : Type :=
| Normal (a : A)
| Throw (e : error).
Arguments Normal {A} a.
Arguments Throw {A} e.

(** Decimal rendering of an integer, as [Number::toString] gives it for
  the integers met here (status codes, avatar indices). *)
Definition Z_to_string (z : Z) : string := NilZero.string_of_int (Z.to_int z).

Section Values.
Variable number : Type.

(** What [JSON.parse] produces.  An object is the list of its own
    properties in insertion order. *)
#[warnings="-register-all"]
Inductive json : Type :=
| JNull
| JBool (b : bool)
| JNum (n : number)
| JStr (s : string)
| JArr (items : list json)
| JObj (members : list (string * json)).

(** A JavaScript value of the kinds the programs handle: [undefined] or
    a JSON value. *)
Inductive jsval : Type :=
| undefined
| Js (j : json).

(** [ToBoolean] of a number: false exactly for [+0], [-0] and [NaN]. *)
Variable number_truthy : number -> bool.

(** [ToBoolean]. *)
Definition truthy (v : jsval) : bool :=
  match v with
  | undefined => false
  | Js JNull => false
  | Js (JBool b) => b
  | Js (JNum n) => number_truthy n
  | Js (JStr s) => negb (s =? "")%string
  | Js (JArr _) => true
  | Js (JObj _) => true
  end.

Fixpoint lookup (key : string) (members : list (string * json)) : jsval :=
  match members with
  | [] => undefined
  | (k, v) :: rest => if (k =? key)%string then Js v else lookup key rest
  end.

(** Property read [v.key] and destructuring [const { key } = v], for a
    [key] that is neither an array index nor a property inherited from
    a built-in prototype ([code], [access_token], [user]).  Reading from [undefined] or [null] throws; a primitive or
    an array has no such property. *)
Definition get_member (v : jsval) (key : string) : completion jsval :=
  match v with
  | undefined =>
      Throw (TypeError ("Cannot read properties of undefined (reading '" ++ key ++ "')"))
  | Js JNull =>
      Throw (TypeError ("Cannot read properties of null (reading '" ++ key ++ "')"))
  | Js (JObj members) => Normal (lookup key members)
  | Js _ => Normal undefined
  end.

(** The JSON document that [JSON.stringify] writes for an object
    literal: a property whose value is [undefined] is left out. *)
Fixpoint stringify_object (props : list (string * jsval)) : list (string * json) :=
  match props with
  | [] => []
  | (k, undefined) :: rest => stringify_object rest
  | (k, Js j) :: rest => (k, j) :: stringify_object rest
  end.

(** The names of the fields of a JSON document (none unless it is an
    object). *)
Definition field_names (j : json) : list string :=
  match j with
  | JObj members => map fst members
  | _ => []
  end.

Definition has_field (j : json) (key : string) : bool :=
  existsb (fun k => (k =? key)%string) (field_names j).

End Values.

Arguments JNull {number}.
Arguments JBool {number} b.
Arguments JNum {number} n.
Arguments JStr {number} s.
Arguments JArr {number} items.
Arguments JObj {number} members.
Arguments undefined {number}.
Arguments Js {number} j.
Arguments get_member : simpl never.

End Js.

(* ===================================================================== *)
(** ** The server: [packages/server/src/app.ts]                           *)
(* ===================================================================== *)

Module Server.
Import Js.

Section App.
Variable number : Type.
Variable number_truthy : number -> bool.
Variable number_to_string : number -> string.

Local Abbreviation json := (json number).
Local Abbreviation jsval := (jsval number).

(** *** Configuration *)

(** The [config] object of a server that passed the start-up check: the
    two required variables are strings. *)
Record config : Type := mkConfig {
  port : number;
  clientPort : number;
  clientId : string;
  clientSecret : string;
  isProduction : bool;
  appName : string
}.

Definition or_default (v : option string) (d : string) : string :=
  match v with
  | Some s => if (s =? "")%string then d else s
  | None => d
  end.

Definition present (v : option string) : bool :=
  match v with
  | Some s => negb (s =? "")%string
  | None => false
  end.

(** Reading [process.env]; [parseInt10] is [parseInt(_, 10)].  [None] is
    [process.exit(1)]: a required variable is missing or empty. *)
Definition load_config (parseInt10 : string -> number)
    (env : string -> option string) : option config :=
  if negb (present (env "VITE_CLIENT_ID")) || negb (present (env "CLIENT_SECRET"))
  then None
  else
    Some {| port := parseInt10 (or_default (env "PORT") "3001");
            clientPort := parseInt10 (or_default (env "CLIENT_PORT") "3000");
            clientId := or_default (env "VITE_CLIENT_ID") "";
            clientSecret := or_default (env "CLIENT_SECRET") "";
            isProduction :=
              match env "NODE_ENV" with
              | Some m => (m =? "production")%string
              | None => false
              end;
            appName := or_default (env "APP_NAME") "Discord Mini App" |}.

Definition with_secret (secret : string) (c : config) : config :=
  {| port := port c; clientPort := clientPort c; clientId := clientId c;
     clientSecret := secret; isProduction := isProduction c;
     appName := appName c |}.

(** *** Requests and responses *)

Inductive method : Type :=
| GET | HEAD | POST | PUT | PATCH | DELETE | OPTIONS.

Definition method_name (m : method) : string :=
  match m with
  | GET => "GET" | HEAD => "HEAD" | POST => "POST" | PUT => "PUT"
  | PATCH => "PATCH" | DELETE => "DELETE" | OPTIONS => "OPTIONS"
  end.

Definition method_eqb (a b : method) : bool :=
  (method_name a =? method_name b)%string.

(** [req.method], [req.path] and [req.body]. *)
Record request : Type := mkRequest {
  req_method : method;
  req_path : string;
  req_body : jsval
}.

(** What a handler sends. *)
Inductive response : Type :=
| JsonResponse (status : Z) (body : json)      (* res.status(s).json(b) *)
| SendFile (path : string)                      (* res.sendFile(path) *)
| LibraryResponse (status : Z) (content : string).
                                   (* sent by a library middleware *)

(** *** The identity provider *)

(** The arguments of the [fetch] call: the URL, the method, the
    [Content-Type] header and the record given to [new URLSearchParams],
    which renders each value as a string. *)
Record provider_request : Type := mkProviderRequest {
  url : string;
  http_method : string;
  content_type : string;
  form : list (string * jsval)
}.

(** A [Response] of [fetch]: its status and what [response.json()]
    settles to. *)
Record provider_response : Type := mkProviderResponse {
  status : Z;
  json_body : completion json
}.

(** [response.ok]: the status is in the range 200-299. *)
Definition ok (r : provider_response) : bool :=
  (200 <=? status r) && (status r <=? 299).

Inductive fetch_outcome : Type :=
| FetchResolves (r : provider_response)
| FetchRejects (e : error).

(** *** Effects *)

Inductive log_arg : Type :=
| LogJson (j : json)
| LogError (e : error).

(** A handler is a tree of the calls it makes to its environment. *)
Inductive io (A : Type) : Type :=
| Ret (a : A)
| Now (k : string -> io A)              (* new Date().toISOString() *)
| ConsoleLog (line : string) (k : io A)
| ConsoleError (label : string) (arg : log_arg) (k : io A)
| Fetch (preq : provider_request) (k : fetch_outcome -> io A).
Arguments Ret {A} a.
Arguments Now {A} k.
Arguments ConsoleLog {A} line k.
Arguments ConsoleError {A} label arg k.
Arguments Fetch {A} preq k.

Fixpoint bind {A B : Type} (m : io A) (f : A -> io B) : io B :=
  match m with
  | Ret a => f a
  | Now k => Now (fun t => bind (k t) f)
  | ConsoleLog line k => ConsoleLog line (bind k f)
  | ConsoleError label arg k => ConsoleError label arg (bind k f)
  | Fetch preq k => Fetch preq (fun o => bind (k o) f)
  end.

(** What the environment does in one run: the clock and the provider,
    each answering by the number of events that came before. *)
Record world : Type := mkWorld {
  clock : nat -> string;
  provider : nat -> fetch_outcome
}.

Inductive event : Type :=
| EvNow (t : string)
| EvLog (line : string)
| EvError (label : string) (arg : log_arg)
| EvFetch (preq : provider_request) (o : fetch_outcome).

Fixpoint run {A : Type} (w : world) (m : io A) (tr : list event) : A * list event :=
  match m with
  | Ret a => (a, tr)
  | Now k =>
      let t := clock w (List.length tr) in run w (k t) (tr ++ [EvNow t])%list
  | ConsoleLog line k => run w k (tr ++ [EvLog line])%list
  | ConsoleError label arg k => run w k (tr ++ [EvError label arg])%list
  | Fetch preq k =>
      let o := provider w (List.length tr) in run w (k o) (tr ++ [EvFetch preq o])%list
  end.

(** The environment as it is after [n] events. *)
Definition later (n : nat) (w : world) : world :=
  {| clock := fun i => clock w (n + i);
     provider := fun i => provider w (n + i) |}.

(** The outbound calls of a trace. *)
Fixpoint outbound_calls (tr : list event) : list provider_request :=
  match tr with
  | [] => []
  | EvFetch preq _ :: rest => preq :: outbound_calls rest
  | _ :: rest => outbound_calls rest
  end.

(** *** Express *)

(** What a middleware or route handler does with a request: answer it,
    call [next()] (the request as the middleware left it), call
    [next(err)], or, for an [async] handler whose promise rejects, leave
    the request without an answer. *)
Inductive step : Type :=
| Respond (r : response)
| Next (req : request)
| NextError (e : error) (req : request)
| Unanswered (e : error).

Inductive reply : Type :=
| Replied (r : response)
| NoReply (e : error).

(** The parts of Express and Node that the application calls and that are
    not part of this code base. *)
Record express : Type := mkExpress {
  express_json : request -> step;                     (* express.json() *)
  cors : option string -> bool -> request -> step;    (* cors({ origin, credentials }) *)
  express_static : string -> request -> step;         (* express.static(root) *)
  path_matches : string -> string -> bool;            (* route path against req.path *)
  path_join : string -> string -> string;             (* path.join *)
  dirname : string;                                   (* __dirname *)
  finalhandler : option error -> request -> response  (* nothing answered *)
}.

Variable X : express.

Inductive layer : Type :=
| Use (mw : request -> io step)                               (* app.use(fn) *)
| OnRoute (m : method) (pattern : string) (h : request -> io step)
                                                 (* app.get / app.post *)
| UseError (h : error -> request -> io step).   (* app.use((err, ...) => ...) *)

(** A route registered with [app.get] also answers [HEAD] requests. *)
Definition method_handled (m rm : method) : bool :=
  method_eqb m rm ||
  match m, rm with
  | GET, HEAD => true
  | _, _ => false
  end.

Definition route_matches (m : method) (pattern : string) (req : request) : bool :=
  method_handled m (req_method req) && path_matches X pattern (req_path req).

(** The router: layers are tried in registration order; after [next(err)]
    only error-handling layers are tried. *)
Fixpoint dispatch (stack : list layer) (err : option error) (req : request)
    : io reply :=
  match stack with
  | [] => Ret (Replied (finalhandler X err req))
  | l :: rest =>
      let continue (s : step) : io reply :=
        match s with
        | Respond r => Ret (Replied r)
        | Next req' => dispatch rest None req'
        | NextError e req' => dispatch rest (Some e) req'
        | Unanswered e => Ret (NoReply e)
        end in
      match l, err with
      | Use mw, None => bind (mw req) continue
      | OnRoute m pattern h, None =>
          if route_matches m pattern req then bind (h req) continue
          else dispatch rest None req
      | UseError h, Some e => bind (h e req) continue
      | _, _ => dispatch rest err req
      end
  end.

(** *** Middleware and route handlers of [app.ts] *)

(** Request logging in development. *)
Definition request_logger (req : request) : io step :=
  Now (fun t =>
    ConsoleLog (t ++ " " ++ method_name (req_method req) ++ " " ++ req_path req)
      (Ret (Next req))).

(** [GET /api/health] *)
Definition get_api_health (cfg : config) (_req : request) : io step :=
  Now (fun t =>
    Ret (Respond (JsonResponse 200
      (JObj (stringify_object
        [("status", Js (JStr "ok"));
         ("app", Js (JStr (appName cfg)));
         ("timestamp", Js (JStr t))]))))).

Definition discord_token_url : string := "https://discord.com/api/oauth2/token".

Definition token_request (cfg : config) (code : jsval) : provider_request :=
  {| url := discord_token_url;
     http_method := "POST";
     content_type := "application/x-www-form-urlencoded";
     form := [("client_id", Js (JStr (clientId cfg)));
              ("client_secret", Js (JStr (clientSecret cfg)));
              ("grant_type", Js (JStr "authorization_code"));
              ("code", code)] |}.

(** The [catch] block of the token handler. *)
Definition token_exchange_error (e : error) : io step :=
  ConsoleError "Token exchange error:" (LogError e)
    (Ret (Respond (JsonResponse 500
      (JObj (stringify_object
        [("error", Js (JStr "Internal server error during token exchange"))]))))).

(** [POST /api/token] *)
Definition post_api_token (cfg : config) (req : request) : io step :=
  match get_member (req_body req) "code" with
  | Throw e => Ret (Unanswered e)
  | Normal code =>
      if negb (truthy number_truthy code) then
        Ret (Respond (JsonResponse 400
          (JObj (stringify_object
            [("error", Js (JStr "Authorization code is required"))]))))
      else
        Fetch (token_request cfg code) (fun o =>
          match o with
          | FetchRejects e => token_exchange_error e
          | FetchResolves response =>
              if negb (ok response) then
                let errorData :=
                  match json_body response with
                  | Normal j => j
                  | Throw _ => JObj []
                  end in
                ConsoleError "Discord token exchange failed:" (LogJson errorData)
                  (Ret (Respond (JsonResponse (status response)
                    (JObj (stringify_object
                      [("error", Js (JStr "Failed to exchange token with Discord"));
                       ("details", Js errorData)])))))
              else
                match json_body response with
                | Throw e => token_exchange_error e
                | Normal tokenData =>
                    match get_member (Js tokenData) "access_token" with
                    | Throw e => token_exchange_error e
                    | Normal access_token =>
                        Ret (Respond (JsonResponse 200
                          (JObj (stringify_object
                            [("access_token", access_token)]))))
                    end
                end
          end)
  end.

(** The fields of [TokenResponse] other than [access_token]. *)
Definition withheld_fields : list string :=
  ["token_type"; "expires_in"; "refresh_token"; "scope"].

(** A request is for a defined route when one of the three API routes
    answers it. *)
Definition matches_defined_route (req : request) : bool :=
  route_matches GET "/api/health" req
  || route_matches POST "/api/token" req
  || route_matches GET "/api/config" req.

(** *** Comparing two runs *)

(** The value of a form field of an outbound request. *)
Definition form_value (key : string) (p : provider_request) : jsval :=
  match find (fun kv => (fst kv =? key)%string) (form p) with
  | Some kv => snd kv
  | None => undefined
  end.

(** An outbound request without its [client_secret] field. *)
Definition redact (p : provider_request) : provider_request :=
  {| url := url p;
     http_method := http_method p;
     content_type := content_type p;
     form := filter (fun kv => negb (fst kv =? "client_secret")%string) (form p) |}.

Definition redact_event (e : event) : event :=
  match e with
  | EvFetch p o => EvFetch (redact p) o
  | _ => e
  end.

(** Two trees that make the same calls, up to [R] on the requests sent to
    the provider, and give the same result for the same answers. *)
Inductive related (R : provider_request -> provider_request -> Prop) {A : Type}
    : io A -> io A -> Prop :=
| related_ret : forall a, related R (Ret a) (Ret a)
| related_now : forall k1 k2,
    (forall t, related R (k1 t) (k2 t)) -> related R (Now k1) (Now k2)
| related_log : forall line k1 k2,
    related R k1 k2 -> related R (ConsoleLog line k1) (ConsoleLog line k2)
| related_error : forall label arg k1 k2,
    related R k1 k2 ->
    related R (ConsoleError label arg k1) (ConsoleError label arg k2)
| related_fetch : forall p1 p2 k1 k2,
    R p1 p2 -> (forall o, related R (k1 o) (k2 o)) ->
    related R (Fetch p1 k1) (Fetch p2 k2).

Inductive related_layer (R : provider_request -> provider_request -> Prop)
    : layer -> layer -> Prop :=
| related_use : forall mw1 mw2,
    (forall req, related R (mw1 req) (mw2 req)) ->
    related_layer R (Use mw1) (Use mw2)
| related_route : forall m pattern h1 h2,
    (forall req, related R (h1 req) (h2 req)) ->
    related_layer R (OnRoute m pattern h1) (OnRoute m pattern h2)
| related_use_error : forall h1 h2,
    (forall e req, related R (h1 e req) (h2 e req)) ->
    related_layer R (UseError h1) (UseError h2).

Inductive related_event (R : provider_request -> provider_request -> Prop)
    : event -> event -> Prop :=
| related_ev_fetch : forall p1 p2 o,
    R p1 p2 -> related_event R (EvFetch p1 o) (EvFetch p2 o)
| related_ev_now : forall t, related_event R (EvNow t) (EvNow t)
| related_ev_log : forall line, related_event R (EvLog line) (EvLog line)
| related_ev_error : forall label arg,
    related_event R (EvError label arg) (EvError label arg).

(** The token requests of two servers that differ in their secret only. *)
Definition token_requests (cfg : config) (s1 s2 : string)
    (p1 p2 : provider_request) : Prop :=
  exists code : jsval,
    p1 = token_request (with_secret s1 cfg) code /\
    p2 = token_request (with_secret s2 cfg) code.

(** One run of the token handler: what it did with the request, and the
    events of the run. *)
Definition token_run (w : world) (cfg : config) (req : request)
    : step * list event :=
  run w (post_api_token cfg req) [].

(** The body [{ error: msg }]. *)
Definition error_body (msg : string) : json := JObj [("error", JStr msg)].

(** [GET /api/config] *)
Definition get_api_config (cfg : config) (_req : request) : io step :=
  Ret (Respond (JsonResponse 200
    (JObj (stringify_object
      [("appName", Js (JStr (appName cfg)));
       ("clientId", Js (JStr (clientId cfg)))])))).

Definition clientDist : string := path_join X (dirname X) "../../client/dist".

(** SPA fallback (production). *)
Definition spa_fallback (_req : request) : io step :=
  Ret (Respond (SendFile (path_join X clientDist "index.html"))).

(** 404 handler *)
Definition not_found (_req : request) : io step :=
  Ret (Respond (JsonResponse 404
    (JObj (stringify_object [("error", Js (JStr "Not found"))])))).

(** Global error handler *)
Definition global_error_handler (cfg : config) (err : error) (_req : request)
    : io step :=
  ConsoleError "Unhandled error:" (LogError err)
    (Ret (Respond (JsonResponse 500
      (JObj (stringify_object
        [("error", Js (JStr (if isProduction cfg then "Internal server error"
                             else err_message err)))]))))).

Definition lift (mw : request -> step) (req : request) : io step := Ret (mw req).

(** The [origin] option given to [cors]. *)
Definition cors_origin (cfg : config) : option string :=
  if isProduction cfg then None
  else Some ("http://localhost:" ++ number_to_string (clientPort cfg)).

(** The application: every [app.use], [app.get] and [app.post] of the
    file, in the order the file registers them. *)
Definition app (cfg : config) : list layer :=
  ([ Use (lift (express_json X));
     Use (lift (cors X (cors_origin cfg) true)) ]
   ++ (if isProduction cfg then [] else [ Use request_logger ])
   ++ [ OnRoute GET "/api/health" (get_api_health cfg);
        OnRoute POST "/api/token" (post_api_token cfg);
        OnRoute GET "/api/config" (get_api_config cfg) ]
   ++ (if isProduction cfg
       then [ Use (lift (express_static X clientDist));
              OnRoute GET "*" spa_fallback ]
       else [])
   ++ [ Use not_found;
        UseError (global_error_handler cfg) ])%list.

(** The server answering one request. *)
Definition serve (cfg : config) (req : request) : io reply :=
  dispatch (app cfg) None req.

End App.

Arguments error_body {number} msg.
Arguments Ret {number A} a.
Arguments Now {number A} k.
Arguments ConsoleLog {number A} line k.
Arguments ConsoleError {number A} label arg k.
Arguments Fetch {number A} preq k.
Arguments LogError {number} e.
Arguments SendFile {number} path.
Arguments LibraryResponse {number} status content.
Arguments FetchRejects {number} e.
Arguments Unanswered {number} e.
Arguments NoReply {number} e.

End Server.

(* ===================================================================== *)
(** ** The client: [packages/client/src/main.ts]                          *)
(* ===================================================================== *)

Module Client.
Import Js.

Section Main.
Variable number : Type.
Variable number_truthy : number -> bool.

Local Abbreviation json := (json number).
Local Abbreviation jsval := (jsval number).

(** [import.meta.env.VITE_CLIENT_ID] *)
Variable clientId : string.

(** The module-level variables [currentUser] and [accessToken]. *)
Record session : Type := mkSession {
  currentUser : jsval;
  accessToken : jsval
}.

(** Both are [null] when the module is loaded. *)
Definition initial_session : session :=
  {| currentUser := Js JNull; accessToken := Js JNull |}.

(** The argument of [discordSdk.commands.authorize]. *)
Record authorize_args : Type := mkAuthorizeArgs {
  client_id : string;
  response_type : string;
  state : string;
  prompt : string;
  scope : list string
}.

(** The second argument of [fetch]; [body] is the document that
    [JSON.stringify] wrote. *)
Record fetch_init : Type := mkFetchInit {
  method : string;
  content_type : string;
  body : json
}.

(** A [Response]: its status and what [text()] and [json()] settle to. *)
Record http_response : Type := mkHttpResponse {
  status : Z;
  text : completion string;
  json_of : completion json
}.

Definition ok (r : http_response) : bool :=
  (200 <=? status r) && (status r <=? 299).

(** The hosting shell, the SDK and the network, as one run sees them. *)
Record host : Type := mkHost {
  sdk_ready : completion unit;
  sdk_authorize : authorize_args -> completion jsval;
  fetch : string -> fetch_init -> completion http_response;
  sdk_authenticate : jsval -> completion jsval
}.

(** The second argument of [debugLog] at its call sites. *)
Inductive debug_data : Type :=
| NoData
| TokenFailure (status : Z) (error : string)   (* { status, error } *)
| AuthUser (user : jsval).                      (* { user } *)

Inductive event : Type :=
| EvDebug (message : string) (data : debug_data)
| EvReady (o : completion unit)
| EvAuthorize (args : authorize_args) (o : completion jsval)
| EvFetch (url : string) (init : fetch_init) (o : completion http_response)
| EvAuthenticate (access_token : jsval) (o : completion jsval).

(** Computations over the session and the trace of calls, which may throw. *)
Definition M (A : Type) : Type :=
  session * list event -> completion A * (session * list event).

Definition ret {A : Type} (a : A) : M A := fun s => (Normal a, s).

Definition throw {A : Type} (e : error) : M A := fun s => (Throw e, s).

Definition bind {A B : Type} (m : M A) (f : A -> M B) : M B :=
  fun s =>
    match m s with
    | (Normal a, s') => f a s'
    | (Throw e, s') => (Throw e, s')
    end.

Declare Scope client_scope.
Delimit Scope client_scope with client.
Notation "x <- m ;; k" := (bind m (fun x => k))
  (at level 61, m at next level, right associativity) : client_scope.
Notation "m ;;; k" := (bind m (fun _ => k))
  (at level 61, right associativity) : client_scope.
Local Open Scope client_scope.

Definition emit (e : event) : M unit :=
  fun s => (Normal tt, (fst s, (snd s ++ [e])%list)).

(** [await p], for a promise that settles to [o], after recording the call. *)
Definition await {A : Type} (e : event) (o : completion A) : M A :=
  emit e ;;;
  match o with
  | Normal a => ret a
  | Throw err => throw err
  end.

(** A settled value that is read without a call of its own. *)
Definition settle {A : Type} (o : completion A) : M A :=
  match o with
  | Normal a => ret a
  | Throw err => throw err
  end.

Definition debugLog (message : string) (data : debug_data) : M unit :=
  emit (EvDebug message data).

Definition set_accessToken (v : jsval) : M unit :=
  fun s => (Normal tt, ({| currentUser := currentUser (fst s); accessToken := v |}, snd s)).

Definition set_currentUser (v : jsval) : M unit :=
  fun s => (Normal tt, ({| currentUser := v; accessToken := accessToken (fst s) |}, snd s)).

Variable H : host.

Definition authorize_request : authorize_args :=
  {| client_id := clientId;
     response_type := "code";
     state := "";
     prompt := "none";
     scope := ["identify"; "guilds"; "rpc.voice.read"] |}.

Definition token_post (code : jsval) : fetch_init :=
  {| method := "POST";
     content_type := "application/json";
     body := JObj (stringify_object [("code", code)]) |}.

(** [setupDiscordSdk] *)
Definition setupDiscordSdk : M jsval :=
  (* Step 1 *)
  debugLog "Step 1: Waiting for SDK ready..." NoData ;;;
  await (EvReady (sdk_ready H)) (sdk_ready H) ;;;
  debugLog "SDK is ready!" NoData ;;;
  (* Step 2 *)
  debugLog "Step 2: Requesting authorization..." NoData ;;;
  authorized <- await (EvAuthorize authorize_request (sdk_authorize H authorize_request))
                  (sdk_authorize H authorize_request) ;;
  code <- settle (get_member authorized "code") ;;
  debugLog "Got authorization code" NoData ;;;
  (* Step 3 *)
  debugLog "Step 3: Exchanging code for token..." NoData ;;;
  response <- await (EvFetch "/api/token" (token_post code)
                       (fetch H "/api/token" (token_post code)))
                (fetch H "/api/token" (token_post code)) ;;
  if negb (ok response) then
    errorText <- settle (text response) ;;
    debugLog "Token exchange failed:" (TokenFailure (status response) errorText) ;;;
    throw (Error ("Failed to exchange code for token: " ++ Z_to_string (status response)))
  else
    payload <- settle (json_of response) ;;
    access_token <- settle (get_member (Js payload) "access_token") ;;
    set_accessToken access_token ;;;
    debugLog "Got access token" NoData ;;;
    (* Step 4 *)
    debugLog "Step 4: Authenticating with Discord..." NoData ;;;
    auth <- await (EvAuthenticate access_token (sdk_authenticate H access_token))
              (sdk_authenticate H access_token) ;;
    (if truthy number_truthy auth then
       user <- settle (get_member auth "user") ;;
       debugLog "Authenticated successfully!" (AuthUser user) ;;;
       set_currentUser user
     else ret tt) ;;;
    ret access_token.

(** One call of [setupDiscordSdk] from the session [s]. *)
Definition setup_from (s : session) : completion jsval * (session * list event) :=
  setupDiscordSdk (s, []).

(** The trace holds a call of [authenticate]. *)
Definition authenticate_called (tr : list event) : bool :=
  existsb (fun e => match e with EvAuthenticate _ _ => true | _ => false end) tr.

End Main.

Arguments NoData {number}.
Arguments TokenFailure {number} status error.
Arguments EvDebug {number} message data.
Arguments EvReady {number} o.
Arguments initial_session {number}.

End Client.

(* ===================================================================== *)
(** ** The client: Discord API helpers of [main.ts]                       *)
(* ===================================================================== *)

Module ClientApi.
Import Js Client.

(** The calls of the authentication sequence, without the debug lines. *)
Inductive call : Type :=
| CallReady
| CallAuthorize
| CallFetch
| CallAuthenticate.

Section Helpers.
Variable number : Type.
Variable number_truthy : number -> bool.
Variable number_to_string : number -> string.

Local Abbreviation json := (json number).
Local Abbreviation jsval := (jsval number).

Fixpoint calls_of (tr : list (Client.event number)) : list call :=
  match tr with
  | [] => []
  | EvDebug _ _ :: rest => calls_of rest
  | EvReady _ :: rest => CallReady :: calls_of rest
  | EvAuthorize _ _ :: rest => CallAuthorize :: calls_of rest
  | EvFetch _ _ _ :: rest => CallFetch :: calls_of rest
  | EvAuthenticate _ _ :: rest => CallAuthenticate :: calls_of rest
  end.

(** [ToString] of a JSON value; in an array, [null] is rendered as the
    empty string. *)
Fixpoint json_to_string (j : json) : string :=
  match j with
  | JNull => "null"
  | JBool true => "true"
  | JBool false => "false"
  | JNum n => number_to_string n
  | JStr s => s
  | JArr items =>
      String.concat ","
        (map (fun x => match x with
                       | JNull => ""
                       | _ => json_to_string x
                       end) items)
  | JObj _ => "[object Object]"
  end.

(** A value inside a template literal. *)
Definition to_string (v : jsval) : string :=
  match v with
  | undefined => "undefined"
  | Js j => json_to_string j
  end.

(** [discordSdk.channelId], [discordSdk.guildId],
    [discordSdk.commands.getChannel] and [fetch] with an [Authorization]
    header. *)
Record sdk : Type := mkSdk {
  channelId : option string;
  guildId : option string;
  getChannel : string -> completion jsval;
  fetch_authorized : string -> string -> completion (http_response number)
}.

Inductive api_event : Type :=
| ApiLog (line : string)
| ApiError (label : string) (e : error)
| ApiGetChannel (channel_id : string) (o : completion jsval)
| ApiFetch (url authorization : string) (o : completion (http_response number)).

(** [ToBoolean] of a value that is a string or [null]; the string it holds
    when it is truthy. *)
Definition present (v : option string) : bool :=
  match v with
  | Some s => negb (s =? "")%string
  | None => false
  end.

Definition string_of (v : option string) : string :=
  match v with
  | Some s => s
  | None => "null"
  end.

Variable S : sdk.

(** [getVoiceChannelInfo] *)
Definition getVoiceChannelInfo : jsval * list api_event :=
  if negb (present (channelId S)) then
    (Js JNull, [ApiLog "Not in a voice channel"])
  else
    let o := getChannel S (string_of (channelId S)) in
    match o with
    | Normal channel => (channel, [ApiGetChannel (string_of (channelId S)) o])
    | Throw e =>
        (Js JNull, [ApiGetChannel (string_of (channelId S)) o;
                    ApiError "Failed to get channel info:" e])
    end.

Definition guilds_url : string := "https://discord.com/api/v10/users/@me/guilds".

(** [v === s] for a string [s]. *)
Definition is_string (v : jsval) (s : string) : bool :=
  match v with
  | Js (JStr t) => (t =? s)%string
  | _ => false
  end.

(** [items.find((g) => g.id === guildId)] *)
Fixpoint find_guild (items : list json) : completion jsval :=
  match items with
  | [] => Normal undefined
  | g :: rest =>
      match get_member (Js g) "id" with
      | Throw e => Throw e
      | Normal id =>
          if is_string id (string_of (guildId S)) then Normal (Js g)
          else find_guild rest
      end
  end.

(** [guilds.find(...)] on what [response.json()] gave: only an array has
    the method. *)
Definition find_in (guilds : json) : completion jsval :=
  match guilds with
  | JArr items => find_guild items
  | JNull => Throw (TypeError "Cannot read properties of null (reading 'find')")
  | _ => Throw (TypeError "guilds.find is not a function")
  end.

(** [getGuildInfo], reading the module variable [accessToken]. *)
Definition getGuildInfo (s : session number) : jsval * list api_event :=
  if negb (truthy number_truthy (accessToken s)) || negb (present (guildId S)) then
    (Js JNull, [])
  else
    let authorization := "Bearer " ++ to_string (accessToken s) in
    let o := fetch_authorized S guilds_url authorization in
    let caught (e : error) :=
      (Js JNull, [ApiFetch guilds_url authorization o;
                  ApiError "Failed to get guild info:" e]) in
    match o with
    | Throw e => caught e
    | Normal response =>
        if negb (ok response) then caught (Error "Failed to fetch guilds")
        else
          match json_of response with
          | Throw e => caught e
          | Normal guilds =>
              match find_in guilds with
              | Throw e => caught e
              | Normal found =>
                  (if truthy number_truthy found then found else Js JNull,
                   [ApiFetch guilds_url authorization o])
              end
          end
    end.

End Helpers.

Arguments ApiLog {number} line.
Arguments ApiError {number} label e.

End ClientApi.

(* ===================================================================== *)
(** ** CDN URL builders of [main.ts]                                      *)
(* ===================================================================== *)

Module Cdn.
Import Js.

(** *** [BigInt(string)] *)

Definition code_unit (c : ascii) : Z := Z.of_N (N_of_ascii c).

(** White space of the set [StrWhiteSpaceChar] that fits a code unit below
    256: TAB, LF, VT, FF, CR, SP and NBSP. *)
Definition is_white_space (c : ascii) : bool :=
  let n := code_unit c in
  ((9 <=? n) && (n <=? 13)) || (n =? 32) || (n =? 160).

Fixpoint trim_start (s : string) : string :=
  match s with
  | EmptyString => EmptyString
  | String c rest => if is_white_space c then trim_start rest else s
  end.

Fixpoint trim_end (s : string) : string :=
  match s with
  | EmptyString => EmptyString
  | String c rest =>
      let rest' := trim_end rest in
      if (rest' =? "")%string && is_white_space c then EmptyString
      else String c rest'
  end.

Definition trim (s : string) : string := trim_end (trim_start s).

(** The value of a digit in the given base, if it is one. *)
Definition digit_value (base : Z) (c : ascii) : option Z :=
  let n := code_unit c in
  let v := if (48 <=? n) && (n <=? 57) then n - 48            (* 0-9 *)
           else if (97 <=? n) && (n <=? 102) then n - 87      (* a-f *)
           else if (65 <=? n) && (n <=? 70) then n - 55       (* A-F *)
           else base in
  if v <? base then Some v else None.

Fixpoint digits_from (base acc : Z) (s : string) : option Z :=
  match s with
  | EmptyString => Some acc
  | String c rest =>
      match digit_value base c with
      | Some d => digits_from base (acc * base + d) rest
      | None => None
      end
  end.

(** One digit at least, and digits only. *)
Definition digits (base : Z) (s : string) : option Z :=
  match s with
  | EmptyString => None
  | _ => digits_from base 0 s
  end.

(** [StringToBigInt]: the empty string after trimming is [0n]; a decimal
    literal may carry a sign; a [0x], [0o] or [0b] literal may not.
    [None] is the [SyntaxError] that [BigInt] throws. *)
Definition StringToBigInt (s : string) : option Z :=
  match trim s with
  | EmptyString => Some 0
  | String "+" rest => digits 10 rest
  | String "-" rest => option_map Z.opp (digits 10 rest)
  | String "0" (String "x" rest) | String "0" (String "X" rest) => digits 16 rest
  | String "0" (String "o" rest) | String "0" (String "O" rest) => digits 8 rest
  | String "0" (String "b" rest) | String "0" (String "B" rest) => digits 2 rest
  | text => digits 10 text
  end.

Definition BigInt (s : string) : completion Z :=
  match StringToBigInt s with
  | Some v => Normal v
  | None => Throw (SyntaxError ("Cannot convert " ++ s ++ " to a BigInt"))
  end.

(** [Number(BigInt(userId) % BigInt(5))].  The remainder of [%] has the
    sign of the dividend, and [Number] is exact on a value between -4
    and 4. *)
Definition defaultIndex (userId : string) : completion Z :=
  match BigInt userId with
  | Normal v => Normal (Z.rem v 5)
  | Throw e => Throw e
  end.

(** *** What the properties compare with *)

(** A string of decimal digits, one at least. *)
Definition is_digit (c : ascii) : bool :=
  (48 <=? code_unit c) && (code_unit c <=? 57).

Fixpoint all_digits (s : string) : bool :=
  match s with
  | EmptyString => true
  | String c rest => is_digit c && all_digits rest
  end.

Definition is_decimal (s : string) : bool :=
  negb (s =? "")%string && all_digits s.

(** The integer that a string of decimal digits denotes, digit by digit
    with its power of ten. *)
Fixpoint decimal_value (s : string) : Z :=
  match s with
  | EmptyString => 0
  | String c rest =>
      (code_unit c - 48) * 10 ^ Z.of_nat (String.length rest) + decimal_value rest
  end.

(** [hay.includes(needle)] *)
Fixpoint includes (needle hay : string) : bool :=
  prefix needle hay ||
  match hay with
  | EmptyString => false
  | String _ rest => includes needle rest
  end.

Section Builders.
Variable number : Type.
Variable number_to_string : number -> string.

(** The number [128]. *)
Variable number_128 : number.

(** [getGuildIconUrl(guildId, iconHash, size = 128)]; [None] is an argument
    left out or [undefined]. *)
Definition getGuildIconUrl (guildId iconHash : string) (size : option number)
    : string :=
  let size := match size with Some n => n | None => number_128 end in
  "https://cdn.discordapp.com/icons/" ++ guildId ++ "/" ++ iconHash
    ++ ".webp?size=" ++ number_to_string size.

(** [ToBoolean] of a value that is a string or [null]. *)
Definition present (avatarHash : option string) : bool :=
  match avatarHash with
  | Some hash => negb (hash =? "")%string
  | None => false
  end.

(** A string or [null] inside a template literal. *)
Definition interpolate (v : option string) : string :=
  match v with
  | Some text => text
  | None => "null"
  end.

(** [getUserAvatarUrl(userId, avatarHash, size = 128)]; the hash is a
    string or [null] ([None]). *)
Definition getUserAvatarUrl (userId : string) (avatarHash : option string)
    (size : option number) : completion string :=
  let size := match size with Some n => n | None => number_128 end in
  if negb (present avatarHash) then
    (* Default avatar based on user ID *)
    match defaultIndex userId with
    | Normal i =>
        Normal ("https://cdn.discordapp.com/embed/avatars/" ++ Z_to_string i ++ ".png")
    | Throw e => Throw e
    end
  else
    Normal ("https://cdn.discordapp.com/avatars/" ++ userId ++ "/"
              ++ interpolate avatarHash ++ ".webp?size=" ++ number_to_string size).

End Builders.
End Cdn.

(* ===================================================================== *)
(** ** The command-line tools: [packages/cli]                             *)
(* ===================================================================== *)

Module Cli.
Import Js.

(** The file system and [dotenv], as one run sees them: whether
    [fs.access] resolves for a path, and what [dotenv.config] returns for
    it ([error], or [parsed]: the values of the file by name). *)
Inductive dotenv_output : Type :=
| DotenvError (e : error)
| DotenvParsed (parsed : option (string -> option string)).

Record system : Type := mkSystem {
  access : string -> bool;
  dotenv_config : string -> dotenv_output;
  path_join : string -> string -> string
}.

(** [envConfig.parsed || {}] *)
Definition parsed_or_empty (parsed : option (string -> option string))
    : string -> option string :=
  match parsed with
  | Some env => env
  | None => fun _ => None
  end.

(** [!env[key]] *)
Definition unset (v : option string) : bool :=
  match v with
  | Some s => (s =? "")%string
  | None => true
  end.

(** [env[key]] where it is used as a string. *)
Definition value_of (v : option string) : string :=
  match v with
  | Some s => s
  | None => "undefined"
  end.

Definition is_placeholder (v : string) : bool :=
  Cdn.includes "your_" v || Cdn.includes "_here" v.

(** *** [validateEnv] *)

Record result : Type := createResult {
  valid : bool;
  errors : list string;
  warnings : list string
}.

(** The body of the loop over the required variables: the errors pushed
    for one of them. *)
Definition required_errors (env : string -> option string)
    (entry : string * string) : list string :=
  let (key, desc) := entry in
  if unset (env key) then
    ["Missing required variable: " ++ key ++ " (" ++ desc ++ ")"]
  else if is_placeholder (value_of (env key)) then
    [key ++ " appears to be a placeholder value"]
  else if (String.length (value_of (env key)) <? 10)%nat then
    [key ++ " appears to be invalid (too short)"]
  else [].

Definition required : list (string * string) :=
  [("VITE_CLIENT_ID", "Discord Client ID");
   ("CLIENT_SECRET", "Discord Client Secret")].

(** The body of the loop over the optional variables. *)
Definition optional_warnings (env : string -> option string)
    (entry : string * (string * string)) : list string :=
  let '(key, (desc, defaultVal)) := entry in
  if unset (env key) then
    [key ++ " (" ++ desc ++ ") not set, using default: " ++ defaultVal]
  else [].

Definition optional : list (string * (string * string)) :=
  [("APP_NAME", ("Application Name", "My Discord Mini App"));
   ("PORT", ("Server Port", "3001"));
   ("CLIENT_PORT", ("Client Port", "3000"))].

Definition validateEnv (sys : system) (rootDir : string) : result :=
  let envPath := path_join sys rootDir ".env" in
  if negb (access sys envPath) then
    createResult false [".env file not found"] []
  else
    match dotenv_config sys envPath with
    | DotenvError e =>
        createResult false
          ["Failed to parse .env file: " ++ err_message e] []
    | DotenvParsed parsed =>
        let env := parsed_or_empty parsed in
        let errors := flat_map (required_errors env) required in
        let warnings := flat_map (optional_warnings env) optional in
        createResult (Nat.eqb (List.length errors) 0) errors warnings
    end.

(** A required variable that [validateEnv] has nothing to say about: set,
    not a placeholder, ten characters at least. *)
Definition acceptable (v : option string) : bool :=
  negb (unset v)
  && negb (is_placeholder (value_of v))
  && (10 <=? String.length (value_of v))%nat.

(** *** [checkEnvironment] of [check-env.js] *)

(** The [chalk] styles that the script uses. *)
Inductive style : Type :=
| Blue | BlueBold | Green | GreenBold | Red | RedBold
| Yellow | YellowBold | Gray | Cyan.

(** One [console.log] of a styled text. *)
Definition line : Type := (style * string)%type.

Definition LF : string := String "010"%char EmptyString.
Definition quote : string := String "034"%char EmptyString.

(** [text.repeat(n)] *)
Fixpoint repeat_string (text : string) (n : nat) : string :=
  match n with
  | O => EmptyString
  | S n' => text ++ repeat_string text n'
  end.

(** [v.substring(0, 4) + '...' + v.substring(v.length - 4)] *)
Definition masked (v : string) : string :=
  substring 0 4 v ++ "..."
    ++ substring (String.length v - 4) (String.length v - (String.length v - 4)) v.

(** The lines written so far and the two flags. *)
Record progress : Type := mkProgress {
  written : list line;
  hasErrors : bool;
  hasWarnings : bool
}.

Definition log (l : line) (p : progress) : progress :=
  {| written := (written p ++ [l])%list;
     hasErrors := hasErrors p;
     hasWarnings := hasWarnings p |}.

Definition flag_error (p : progress) : progress :=
  {| written := written p; hasErrors := true; hasWarnings := hasWarnings p |}.

Definition flag_warning (p : progress) : progress :=
  {| written := written p; hasErrors := hasErrors p; hasWarnings := true |}.

(** A required variable that the script reports as not configured. *)
Definition not_configured (v : option string) : bool :=
  unset v || is_placeholder (value_of v).

Definition check_required (env : string -> option string)
    (p : progress) (entry : string * string) : progress :=
  let (key, desc) := entry in
  if not_configured (env key) then
    flag_error (log (Red, "✗ " ++ key ++ " (" ++ desc ++ ") is not configured") p)
  else
    log (Green, "✓ " ++ key ++ ": " ++ masked (value_of (env key))) p.

Definition check_optional (env : string -> option string)
    (p : progress) (entry : string * (string * string)) : progress :=
  let '(key, (desc, defaultVal)) := entry in
  if unset (env key) then
    flag_warning
      (log (Yellow, "⚠ " ++ key ++ " (" ++ desc ++ ") not set, using default: "
                      ++ defaultVal) p)
  else
    log (Green, "✓ " ++ key ++ ": " ++ value_of (env key)) p.

Definition optionalVars : list (string * (string * string)) :=
  [("APP_NAME", ("Application Name", "My Discord Mini App"));
   ("PORT", ("Server Port", "3001"))].

Definition requiredFiles : list (string * string) :=
  [("packages/client/package.json", "Client package.json");
   ("packages/server/package.json", "Server package.json");
   ("packages/client/src/main.ts", "Client main.ts");
   ("packages/server/src/app.ts", "Server app.ts")].

Definition check_file (sys : system) (rootDir : string)
    (p : progress) (file : string * string) : progress :=
  let (path, desc) := file in
  if access sys (path_join sys rootDir path) then
    log (Green, "✓ " ++ desc) p
  else
    flag_error (log (Red, "✗ " ++ desc ++ " not found") p).

(** [checkEnvironment]: the lines it writes, and [Some 1] when it ends in
    [process.exit(1)]. *)
Definition checkEnvironment (sys : system) (rootDir : string)
    : list line * option Z :=
  let p := log (BlueBold, LF ++ "🔍 Discord Mini App - Environment Check" ++ LF)
             (mkProgress [] false false) in
  (* Check .env file exists *)
  let envPath := path_join sys rootDir ".env" in
  let envExists := access sys envPath in
  let p :=
    if envExists then log (Green, "✓ .env file found") p
    else
      flag_error
        (log (Gray, "  Run " ++ quote ++ "npm run wizard" ++ quote ++ " to create one")
           (log (Red, "✗ .env file not found") p)) in
  let p :=
    if envExists then
      match dotenv_config sys envPath with
      | DotenvError _ => flag_error (log (Red, "✗ Failed to parse .env file") p)
      | DotenvParsed parsed =>
          let env := parsed_or_empty parsed in
          let p := fold_left (check_required env) required p in
          fold_left (check_optional env) optionalVars p
      end
    else p in
  (* Check for required files *)
  let p := log (Blue, LF ++ "📁 Checking project files..." ++ LF) p in
  let p := fold_left (check_file sys rootDir) requiredFiles p in
  (* Check node_modules *)
  let p := log (Blue, LF ++ "📦 Checking dependencies..." ++ LF) p in
  let p :=
    if access sys (path_join sys rootDir "node_modules") then
      log (Green, "✓ node_modules found") p
    else
      flag_warning
        (log (Gray, "  Run " ++ quote ++ "npm install" ++ quote
                      ++ " to install dependencies")
           (log (Yellow, "⚠ node_modules not found") p)) in
  (* Summary *)
  let p := log (Blue, LF ++ repeat_string "─" 50) p in
  if hasErrors p then
    (written
       (log (Yellow, LF ++ "To fix issues, run: npm run wizard" ++ LF)
          (log (RedBold, LF ++ "❌ Environment check failed") p)),
     Some 1)
  else if hasWarnings p then
    (written
       (log (Gray, "Your app should work, but consider fixing the warnings." ++ LF)
          (log (YellowBold, LF ++ "⚠️  Environment check passed with warnings") p)),
     None)
  else
    (written
       (log (Cyan, "Start development with: npm run dev" ++ LF)
          (log (Gray, "Your Discord Mini App is ready to run." ++ LF)
             (log (GreenBold, LF ++ "✅ Environment check passed!") p))),
     None).

(** What makes the script end with [process.exit(1)]: no [.env] file, a
    file that cannot be parsed, a required variable that is not configured,
    or a required project file that is missing. *)
Definition failing (sys : system) (rootDir : string) : bool :=
  negb (access sys (path_join sys rootDir ".env"))
  || match dotenv_config sys (path_join sys rootDir ".env") with
     | DotenvError _ => true
     | DotenvParsed parsed =>
         existsb (fun entry => not_configured (parsed_or_empty parsed (fst entry)))
           required
     end
  || existsb (fun file => negb (access sys (path_join sys rootDir (fst file))))
       requiredFiles.

(** The same system with another content of the [.env] file. *)
Definition with_env (sys : system) (env : string -> option string) : system :=
  {| access := access sys;
     dotenv_config := fun _ => DotenvParsed (Some env);
     path_join := path_join sys |}.

(** *** [logger.code] of [logger.js] *)

Definition is_LF (c : ascii) : bool := (c =? "010")%char.

(** [text.split('\n')] *)
Fixpoint split_lines (text : string) : list string :=
  match text with
  | EmptyString => [EmptyString]
  | String c rest =>
      if is_LF c then EmptyString :: split_lines rest
      else
        match split_lines rest with
        | first :: others => String c first :: others
        | [] => [String c EmptyString]
        end
  end.

(** [logger.code(content)]: one [console.log] of
    ['  ' + content.split('\n').join('\n  ')] in gray. *)
Definition logger_code (content : string) : line :=
  (Gray, "  " ++ String.concat (LF ++ "  ") (split_lines content)).

(** No line feed in a string. *)
Fixpoint one_line (text : string) : bool :=
  match text with
  | EmptyString => true
  | String c rest => negb (is_LF c) && one_line rest
  end.

(** *** The wizard's validators of the two credentials *)

(** What a [validate] function returns: [true], or a message. *)
Inductive validation : Type :=
| Accepted
| Rejected (message : string).

Definition validate_client_id (input : string) : validation :=
  if (input =? "")%string || (String.length input <? 10)%nat then
    Rejected "Please enter a valid Client ID (it's a long number)"
  else Accepted.

Definition validate_client_secret (input : string) : validation :=
  if (input =? "")%string || (String.length input <? 10)%nat then
    Rejected "Please enter a valid Client Secret"
  else Accepted.

End Cli.

(* ===================================================================== *)
(** ** Concrete configurations, requests and environments                 *)
(* ===================================================================== *)

Module Scenario.
Import Js Server.

(** Numbers that are integers. *)
Definition z_truthy (z : Z) : bool := negb (z =? 0).

(** An Express whose library middleware passes every request on, with
    exact path matching and [*] matching every path. *)
Definition plain_path_matches (pattern path : string) : bool :=
  (pattern =? "*")%string || (pattern =? path)%string.

Definition plain_express : express Z :=
  {| express_json := fun req => Next req;
     cors := fun _ _ req => Next req;
     express_static := fun _ req => Next req;
     path_matches := plain_path_matches;
     path_join := fun a b => a ++ "/" ++ b;
     dirname := "/srv/packages/server/src";
     finalhandler := fun err _ =>
       LibraryResponse (match err with None => 404 | Some _ => 500 end) "" |}.

Definition development : config Z :=
  {| port := 3001; clientPort := 3000;
     clientId := "1234567890"; clientSecret := "s3cr3t";
     isProduction := false; appName := "Discord Mini App" |}.

Definition production : config Z :=
  {| port := 3001; clientPort := 3000;
     clientId := "1234567890"; clientSecret := "s3cr3t";
     isProduction := true; appName := "Discord Mini App" |}.

(** [POST /api/token] with the given JSON body. *)
Definition post_token (body : json Z) : request Z :=
  {| req_method := POST; req_path := "/api/token"; req_body := Js body |}.

Definition valid_code : request Z :=
  post_token (JObj [("code", JStr "validcode")]).

(** An environment whose provider always settles the same way. *)
Definition answering (o : fetch_outcome Z) : world Z :=
  {| clock := fun _ => "2024-01-01T00:00:00.000Z";
     provider := fun _ => o |}.

Definition provider_says (st : Z) (body : completion (json Z)) : world Z :=
  answering (FetchResolves {| status := st; json_body := body |}).

(** The call that the handler makes for [valid_code]. *)
Definition valid_code_call : provider_request Z :=
  token_request development (Js (JStr "validcode")).

Definition unauthorized : provider_response Z :=
  {| status := 401;
     json_body := Normal (JObj [("error", JStr "invalid_client")]) |}.

Definition connection_reset : error := TypeError "fetch failed".

(** The provider's answer of the end-to-end scenario of the specification. *)
Definition full_token_response : provider_response Z :=
  {| status := 200;
     json_body := Normal (JObj [("access_token", JStr "tok_123");
                                ("refresh_token", JStr "r1");
                                ("scope", JStr "identify")]) |}.

(** A 2xx answer without [access_token]. *)
Definition tokenless_response : provider_response Z :=
  {| status := 200;
     json_body := Normal (JObj [("refresh_token", JStr "r1")]) |}.

(** A 2xx answer whose body is not JSON. *)
Definition unparseable_response : provider_response Z :=
  {| status := 200;
     json_body := Throw (SyntaxError "Unexpected token < in JSON at position 0") |}.

Definition get_nowhere : request Z :=
  {| req_method := GET; req_path := "/nowhere"; req_body := undefined |}.

(** A user ID above 2^53; the nearest double is 9007199254740992. *)
Definition large_user_id : string := "9007199254740993".

(** A host on which steps 1 and 2 succeed and the token endpoint answers
    with the given status. *)
Definition token_endpoint_says (st : Z) : Client.host Z :=
  {| Client.sdk_ready := Normal tt;
     Client.sdk_authorize := fun _ => Normal (Js (JObj [("code", JStr "validcode")]));
     Client.fetch := fun _ _ =>
       Normal {| Client.status := st;
                 Client.text := Normal "{}";
                 Client.json_of := Normal (JObj []) |};
     Client.sdk_authenticate := fun _ => Normal (Js JNull) |}.

(** A 2xx answer of the provider that is not 200. *)
Definition created : provider_response Z :=
  {| status := 201;
     json_body := Normal (JObj [("access_token", JStr "tok_123")]) |}.

Definition sdk_closed : error := Error "RPC connection closed".

(** [parseInt(_, 10)] on strings of decimal digits. *)
Definition parse_decimal (s : string) : Z := Cdn.decimal_value s.

(** An Express whose body parser rejects every body. *)
Definition malformed_body : error := SyntaxError "Unexpected end of JSON input".

Definition rejecting_express : express Z :=
  {| express_json := fun req => NextError malformed_body req;
     cors := cors plain_express;
     express_static := express_static plain_express;
     path_matches := path_matches plain_express;
     path_join := path_join plain_express;
     dirname := dirname plain_express;
     finalhandler := finalhandler plain_express |}.

Definition get_health : request Z :=
  {| req_method := GET; req_path := "/api/health"; req_body := undefined |}.

(** The profile that [authenticate] returns. *)
Definition some_user : json Z :=
  JObj [("id", JStr "80351110224678912"); ("username", JStr "nelly")].

(** A host on which the token endpoint returns [tok_123]; [authenticate]
    settles as given. *)
Definition host_with_token (auth : completion (jsval Z)) : Client.host Z :=
  {| Client.sdk_ready := Normal tt;
     Client.sdk_authorize := fun _ => Normal (Js (JObj [("code", JStr "validcode")]));
     Client.fetch := fun _ _ =>
       Normal {| Client.status := 200;
                 Client.text := Normal "";
                 Client.json_of := Normal (JObj [("access_token", JStr "tok_123")]) |};
     Client.sdk_authenticate := fun _ => auth |}.

Definition authenticated : completion (jsval Z) :=
  Normal (Js (JObj [("user", some_user)])).


(** Inside the guild [g2]; the guilds request returns three guilds, two of
    them with the ID [g2]. *)
Definition guild_one : json Z := JObj [("id", JStr "g1"); ("name", JStr "One")].
Definition guild_two : json Z := JObj [("id", JStr "g2"); ("name", JStr "Two")].
Definition guild_two_again : json Z := JObj [("id", JStr "g2"); ("name", JStr "Again")].

Definition in_guild_two : ClientApi.sdk Z :=
  {| ClientApi.channelId := Some "c1";
     ClientApi.guildId := Some "g2";
     ClientApi.getChannel := fun _ => Normal (Js (JObj [("name", JStr "General")]));
     ClientApi.fetch_authorized := fun _ _ =>
       Normal {| Client.status := 200;
                 Client.text := Normal "";
                 Client.json_of := Normal (JArr [guild_one; guild_two; guild_two_again]) |} |}.

Definition signed_in : Client.session Z :=
  {| Client.currentUser := Js some_user;
     Client.accessToken := Js (JStr "tok_123") |}.

(** A project directory with every file in place and the given [.env]. *)
Definition project (env : string -> option string) : Cli.system :=
  {| Cli.access := fun _ => true;
     Cli.dotenv_config := fun _ => Cli.DotenvParsed (Some env);
     Cli.path_join := fun a b => a ++ "/" ++ b |}.

Definition env_file (id secret : string) (key : string) : option string :=
  if (key =? "VITE_CLIENT_ID")%string then Some id
  else if (key =? "CLIENT_SECRET")%string then Some secret
  else None.

End Scenario.

(* ===================================================================== *)
(** ** Reading a run of the server                                        *)
(* ===================================================================== *)

Module Observe.
Import Js Server.

Section Traces.
Variable number : Type.

(** The lines written with [console.log] in a run. *)
Fixpoint log_lines (tr : list (event number)) : list string :=
  match tr with
  | [] => []
  | EvLog _ line :: rest => line :: log_lines rest
  | _ :: rest => log_lines rest
  end.

(** The line that the development request logger writes at time [t]. *)
Definition request_line (t : string) (req : request number) : string :=
  t ++ " " ++ method_name (req_method req) ++ " " ++ req_path req.

End Traces.
End Observe.

(* defs-end *)

(* ===================================================================== *)
(** ** Properties of the token endpoint                                   *)
(* ===================================================================== *)

Section TokenEndpoint.
Import Js Server.
Variable number : Type.
Variable number_truthy : number -> bool.

Local Abbreviation json := (json number).
Local Abbreviation jsval := (jsval number).
Local Abbreviation token_run := (token_run number_truthy).

(** Case analysis along the branches of the handler: the [code] read from
    the body, its truthiness, the outcome of [fetch], [response.ok], the
    outcome of [response.json()]. *)
Ltac token_branches w req :=
  unfold token_run, Server.token_run, post_api_token, token_exchange_error in *;
  destruct (get_member (req_body req) "code") as [code | ?];
  [ destruct (truthy number_truthy code); cbn in *;
    [ destruct (provider w 0%nat) as [r | ?]; cbn in *;
      [ destruct (ok r) eqn:?; cbn in *;
        [ destruct (json_body r) as [tokenData | ?] eqn:?; cbn in *;
          [ destruct (get_member (Js tokenData) "access_token") as [access_token | ?] eqn:?;
            cbn in * | ]
        | ]
      | ]
    | ]
  | cbn in * ].

Ltac trace_member :=
  repeat match goal with
  | H : _ \/ _ |- _ => destruct H
  | H : False |- _ => destruct H
  | H : EvFetch _ _ = EvFetch _ _ |- _ => inversion H; clear H; subst
  | H : EvError _ _ = EvFetch _ _ |- _ => discriminate H
  end.

(** The handler answers the request or leaves it unanswered; it never
    calls [next]. *)
Lemma token_handler_settles :
  forall (w : world number) (cfg : config number) (req : request number),
    match fst (token_run w cfg req) with
    | Respond _ | Unanswered _ => True
    | Next _ | NextError _ _ => False
    end.
Proof.
  intros w cfg req. token_branches w req; exact I.
Qed.

(** C2.  A request whose body has no [code] field, or an empty one, is
    answered 400 [{ error: "Authorization code is required" }], and the run
    has no event at all: no call to the identity provider is made. *)
Theorem token_requires_code :
  forall (w : world number) (cfg : config number) (req : request number),
    get_member (req_body req) "code" = Normal undefined \/
    get_member (req_body req) "code" = Normal (Js (JStr "")) ->
    fst (token_run w cfg req)
      = Respond (JsonResponse 400 (error_body "Authorization code is required"))
    /\ outbound_calls (snd (token_run w cfg req)) = []
    /\ snd (token_run w cfg req) = [].
Proof.
  intros w cfg req Hcode.
  unfold token_run, Server.token_run, post_api_token.
  destruct Hcode as [-> | ->]; cbn; auto.
Qed.

(** The same holds for every falsy [code] ([null], [false], [0]). *)
Lemma token_rejects_falsy_code :
  forall (w : world number) (cfg : config number) (req : request number)
         (code : jsval),
    get_member (req_body req) "code" = Normal code ->
    truthy number_truthy code = false ->
    token_run w cfg req
      = (Respond (JsonResponse 400 (error_body "Authorization code is required")), []).
Proof.
  intros w cfg req code Hcode Hfalsy.
  unfold token_run, Server.token_run, post_api_token.
  rewrite Hcode, Hfalsy. reflexivity.
Qed.

(** C3.  When the identity provider answers with a status outside 200-299,
    the endpoint answers with that same status; the body carries the
    provider's payload under [details], or [{}] when the payload could not
    be parsed. *)
Theorem token_forwards_provider_error :
  forall (w : world number) (cfg : config number) (req : request number)
         (preq : provider_request number) (presp : provider_response number),
    In (EvFetch preq (FetchResolves presp)) (snd (token_run w cfg req)) ->
    ok presp = false ->
    fst (token_run w cfg req)
      = Respond (JsonResponse (status presp)
          (JObj [("error", JStr "Failed to exchange token with Discord");
                 ("details", match json_body presp with
                             | Normal payload => payload
                             | Throw _ => JObj []
                             end)])).
Proof.
  intros w cfg req preq presp Hin Hok.
  token_branches w req; trace_member; congruence.
Qed.

(** C4 (amended).  When the call to the identity provider throws, the
    endpoint answers 500 with the fixed message
    ["Internal server error during token exchange"], whatever the
    environment mode, and the error is written to the server log. *)
Theorem token_transport_failure :
  forall (w : world number) (cfg : config number) (req : request number)
         (preq : provider_request number) (e : error),
    In (EvFetch preq (FetchRejects e)) (snd (token_run w cfg req)) ->
    fst (token_run w cfg req)
      = Respond (JsonResponse 500
          (error_body "Internal server error during token exchange"))
    /\ In (EvError "Token exchange error:" (LogError e)) (snd (token_run w cfg req)).
Proof.
  intros w cfg req preq e Hin.
  token_branches w req; trace_member; try congruence.
  split; [ reflexivity | right; left; reflexivity ].
Qed.

(** C1 (amended).  When the identity provider answers 2xx with a body that
    parses to a value carrying an [access_token] member, the endpoint
    answers 200 with a body of exactly one field, [access_token], holding
    that member; and whatever body a 2xx answer of the provider carries, the
    endpoint's answer is a JSON body without [refresh_token], [token_type],
    [expires_in] and [scope]. *)
Theorem token_success_narrows_payload :
  forall (w : world number) (cfg : config number) (req : request number)
         (preq : provider_request number) (presp : provider_response number),
    In (EvFetch preq (FetchResolves presp)) (snd (token_run w cfg req)) ->
    ok presp = true ->
    (forall (tokenData token : json),
        json_body presp = Normal tokenData ->
        get_member (Js tokenData) "access_token" = Normal (Js token) ->
        fst (token_run w cfg req)
          = Respond (JsonResponse 200 (JObj [("access_token", token)])))
    /\ (exists (st : Z) (body : json),
          fst (token_run w cfg req) = Respond (JsonResponse st body)
          /\ forall k, In k withheld_fields -> has_field body k = false).
Proof.
  intros w cfg req preq presp Hin Hok.
  token_branches w req; trace_member; try congruence.
  - split.
    + intros tokenData' token Hbody Hget.
      assert (tokenData' = tokenData) by congruence; subst tokenData'.
      assert (access_token = Js token) by congruence; subst access_token.
      reflexivity.
    + destruct access_token as [ | token ]; eexists; eexists;
        (split; [ reflexivity | ]);
        intros k [<- | [<- | [<- | [<- | []]]]]; reflexivity.
  - split.
    + intros tokenData' token Hbody Hget. congruence.
    + eexists; eexists; split; [ reflexivity | ].
      intros k [<- | [<- | [<- | [<- | []]]]]; reflexivity.
  - split.
    + intros tokenData' token Hbody Hget. congruence.
    + eexists; eexists; split; [ reflexivity | ].
      intros k [<- | [<- | [<- | [<- | []]]]]; reflexivity.
Qed.

(** C10 (amended).  The endpoint does not validate a successful payload:
    when the provider answers 2xx with a body that parses to a JSON value
    other than [null], the endpoint answers 200; and when that value has no
    [access_token] member the returned body is [{}], without an
    [access_token] field. *)
Theorem token_success_not_validated :
  forall (w : world number) (cfg : config number) (req : request number)
         (preq : provider_request number) (presp : provider_response number)
         (tokenData : json),
    In (EvFetch preq (FetchResolves presp)) (snd (token_run w cfg req)) ->
    ok presp = true ->
    json_body presp = Normal tokenData ->
    tokenData <> JNull ->
    exists body : json,
      fst (token_run w cfg req) = Respond (JsonResponse 200 body)
      /\ (get_member (Js tokenData) "access_token" = Normal undefined ->
          body = JObj [] /\ has_field body "access_token" = false).
Proof.
  intros w cfg req preq presp tokenData0 Hin Hok Hbody Hnull.
  token_branches w req; trace_member; try congruence.
  - assert (tokenData0 = tokenData) by congruence; subst tokenData0.
    eexists; split; [ reflexivity | ].
    intros Hget.
    assert (access_token = undefined) by congruence; subst access_token.
    split; reflexivity.
  - exfalso.
    assert (tokenData0 = tokenData) by congruence; subst tokenData0.
    destruct tokenData; try discriminate. apply Hnull; reflexivity.
Qed.

End TokenEndpoint.

(* ===================================================================== *)
(** ** Properties of the application as a whole                           *)
(* ===================================================================== *)

Section Application.
Import Js Server.
Variable number : Type.
Variable number_truthy : number -> bool.
Variable number_to_string : number -> string.
Variable X : express number.

Local Abbreviation json := (json number).
Local Abbreviation jsval := (jsval number).
Local Abbreviation serve := (serve number_truthy number_to_string X).
Local Abbreviation app := (Server.app number_truthy number_to_string X).
Local Abbreviation dispatch := (dispatch X).

Section Related.
Variable R : provider_request number -> provider_request number -> Prop.

Lemma related_bind :
  forall (A B : Type) (m1 m2 : io number A) (f1 f2 : A -> io number B),
    related R m1 m2 ->
    (forall a, related R (f1 a) (f2 a)) ->
    related R (bind m1 f1) (bind m2 f2).
Proof.
  intros A B m1 m2 f1 f2 Hm Hf.
  induction Hm; cbn; auto; constructor; auto.
Qed.

Lemma related_dispatch :
  forall (stack1 stack2 : list (layer number)),
    Forall2 (related_layer R) stack1 stack2 ->
    forall (err : option error) (req : request number),
      related R (dispatch stack1 err req) (dispatch stack2 err req).
Proof.
  intros stack1 stack2 Hstacks.
  induction Hstacks as [ | l1 l2 rest1 rest2 Hl _ IH ]; intros err req.
  - cbn. constructor.
  - assert (Hcont : forall s : step number,
      related R
        (match s with
         | Respond r => Ret (Replied r)
         | Next req' => dispatch rest1 None req'
         | NextError e req' => dispatch rest1 (Some e) req'
         | Unanswered e => Ret (NoReply e)
         end)
        (match s with
         | Respond r => Ret (Replied r)
         | Next req' => dispatch rest2 None req'
         | NextError e req' => dispatch rest2 (Some e) req'
         | Unanswered e => Ret (NoReply e)
         end)).
    { intros [r | req' | e req' | e]; auto; constructor. }
    destruct Hl as [mw1 mw2 Hmw | m pattern h1 h2 Hh | h1 h2 Hh];
      destruct err as [e | ]; cbn; auto.
    + apply related_bind; auto.
    + destruct (route_matches X m pattern req); auto.
      apply related_bind; auto.
    + apply related_bind; auto.
Qed.

Lemma related_run :
  forall (A : Type) (m1 m2 : io number A),
    related R m1 m2 ->
    forall (w : world number) (tr1 tr2 : list (event number)),
      Forall2 (related_event R) tr1 tr2 ->
      fst (run w m1 tr1) = fst (run w m2 tr2)
      /\ Forall2 (related_event R) (snd (run w m1 tr1)) (snd (run w m2 tr2)).
Proof.
  intros A m1 m2 Hm.
  induction Hm as [ a | k1 k2 _ IH | line k1 k2 _ IH | label arg k1 k2 _ IH
                  | p1 p2 k1 k2 Hp _ IH ];
    intros w tr1 tr2 Htr; cbn.
  - auto.
  - rewrite (Forall2_length Htr).
    apply IH. apply Forall2_app; auto. repeat constructor.
  - apply IH. apply Forall2_app; auto. repeat constructor.
  - apply IH. apply Forall2_app; auto. repeat constructor.
  - rewrite (Forall2_length Htr).
    apply IH. apply Forall2_app; auto. repeat constructor. exact Hp.
Qed.

End Related.

(** The layers of two servers that differ in their secret only. *)
Lemma app_related :
  forall (cfg : config number) (s1 s2 : string),
    Forall2 (related_layer (token_requests cfg s1 s2))
      (app (with_secret s1 cfg)) (app (with_secret s2 cfg)).
Proof.
  intros cfg s1 s2.
  unfold app, Server.app, cors_origin; cbn [isProduction clientPort with_secret].
  destruct (isProduction cfg); cbn [List.app];
    repeat (apply Forall2_cons || apply Forall2_nil);
    constructor; intros;
    try (unfold lift, request_logger, get_api_health, get_api_config,
           spa_fallback, not_found, global_error_handler;
         cbn [isProduction appName clientId with_secret];
         repeat (constructor; intros); fail).
  all: unfold post_api_token, token_exchange_error;
    destruct (get_member (req_body req) "code") as [code | e];
      [ | constructor ];
    destruct (truthy number_truthy code); cbn [negb];
      [ | constructor ];
    (constructor; [ exists code; split; reflexivity | ]);
    intros [r | e]; [ | repeat constructor ];
    destruct (ok r); cbn [negb]; [ | repeat constructor ];
    destruct (json_body r) as [tokenData | e]; [ | repeat constructor ];
    destruct (get_member (Js tokenData) "access_token"); repeat constructor.
Qed.

Lemma related_events_redact :
  forall (cfg : config number) (s1 s2 : string) (tr1 tr2 : list (event number)),
    Forall2 (related_event (token_requests cfg s1 s2)) tr1 tr2 ->
    map (@redact_event number) tr1 = map (@redact_event number) tr2.
Proof.
  intros cfg s1 s2 tr1 tr2 Htr.
  induction Htr as [ | e1 e2 rest1 rest2 He _ IH ]; cbn; [ reflexivity | ].
  f_equal; [ | exact IH ].
  destruct He as [p1 p2 o (code & -> & ->) | | | ]; reflexivity.
Qed.

Lemma related_events_outbound :
  forall (cfg : config number) (s1 s2 : string) (tr1 tr2 : list (event number)),
    Forall2 (related_event (token_requests cfg s1 s2)) tr1 tr2 ->
    forall p, In p (outbound_calls tr1) ->
      exists code, p = token_request (with_secret s1 cfg) code.
Proof.
  intros cfg s1 s2 tr1 tr2 Htr.
  induction Htr as [ | e1 e2 rest1 rest2 He _ IH ]; cbn; [ intros p [] | ].
  destruct He as [p1 p2 o (code & -> & ->) | | | ]; cbn; auto.
  intros p [<- | Hin]; eauto.
Qed.

(** C8.  The answer of the server does not depend on the client secret.
    Take any request, any behaviour of the clock and of the identity
    provider, and two servers whose configurations differ in the secret
    only: both give the same answer (whichever route, the 404 handler or the
    global error handler produces it) and write the same log lines, and the
    calls they make to the provider are equal apart from the
    [client_secret] form field.  Every outbound call goes to the provider's
    token URL, form-encoded, and carries the secret in that field. *)
Theorem client_secret_stays_on_server :
  forall (w : world number) (cfg : config number) (s1 s2 : string)
         (req : request number),
    fst (run w (serve (with_secret s1 cfg) req) [])
      = fst (run w (serve (with_secret s2 cfg) req) [])
    /\ map (@redact_event number) (snd (run w (serve (with_secret s1 cfg) req) []))
       = map (@redact_event number) (snd (run w (serve (with_secret s2 cfg) req) []))
    /\ forall p,
         In p (outbound_calls (snd (run w (serve (with_secret s1 cfg) req) []))) ->
         url p = discord_token_url
         /\ content_type p = "application/x-www-form-urlencoded"
         /\ form_value "client_secret" p = Js (JStr s1).
Proof.
  intros w cfg s1 s2 req.
  destruct (related_run
              (related_dispatch (app_related cfg s1 s2) None req)
              w (Forall2_nil _)) as [Hreply Htrace].
  split; [ exact Hreply | split ].
  - exact (related_events_redact Htrace).
  - intros p Hin.
    destruct (related_events_outbound Htrace p Hin) as [code ->].
    repeat split.
Qed.

(** *** From the application to the token handler *)

Lemma run_bind :
  forall (A B : Type) (m : io number A) (f : A -> io number B)
         (w : world number) (tr : list (event number)),
    run w (bind m f) tr = run w (f (fst (run w m tr))) (snd (run w m tr)).
Proof.
  intros A B m f w. induction m; intros tr; cbn; auto.
Qed.

(** A run depends on the events before it only through their number. *)
Lemma run_suffix :
  forall (A : Type) (m : io number A) (w w' : world number)
         (tr tr' : list (event number)),
    (forall i, clock w (List.length tr + i) = clock w' (List.length tr' + i)) ->
    (forall i, provider w (List.length tr + i) = provider w' (List.length tr' + i)) ->
    fst (run w m tr) = fst (run w' m tr')
    /\ exists suffix,
         snd (run w m tr) = (tr ++ suffix)%list
         /\ snd (run w' m tr') = (tr' ++ suffix)%list.
Proof.
  intros A m.
  assert (Hshift : forall (f g : nat -> string) (tr tr' : list (event number)) e,
            (forall i, f (List.length tr + i)%nat = g (List.length tr' + i)%nat) ->
            forall i, f (List.length (tr ++ [e]) + i)%nat
                      = g (List.length (tr' ++ [e]) + i)%nat).
  { intros f g tr tr' e Hfg i. rewrite !length_app. cbn [List.length].
    rewrite <- !Nat.add_assoc. apply Hfg. }
  assert (Hshift' : forall (f g : nat -> fetch_outcome number)
                           (tr tr' : list (event number)) e,
            (forall i, f (List.length tr + i)%nat = g (List.length tr' + i)%nat) ->
            forall i, f (List.length (tr ++ [e]) + i)%nat
                      = g (List.length (tr' ++ [e]) + i)%nat).
  { intros f g tr tr' e Hfg i. rewrite !length_app. cbn [List.length].
    rewrite <- !Nat.add_assoc. apply Hfg. }
  induction m as [ a | k IH | line k IH | label arg k IH | preq k IH ];
    intros w w' tr tr' Hclock Hprovider; cbn [run].
  - split; [ reflexivity | ]. exists []. rewrite !app_nil_r. split; reflexivity.
  - pose proof (Hclock 0%nat) as Hnow. rewrite !Nat.add_0_r in Hnow.
    rewrite <- Hnow.
    destruct (IH (clock w (List.length tr)) w w'
                (tr ++ [EvNow number (clock w (List.length tr))])%list
                (tr' ++ [EvNow number (clock w (List.length tr))])%list)
      as [Hfst (suffix & Hl & Hr)]; auto.
    split; [ exact Hfst | ].
    eexists. rewrite Hl, Hr, <- !app_assoc. split; reflexivity.
  - destruct (IH w w' (tr ++ [EvLog number line])%list (tr' ++ [EvLog number line])%list)
      as [Hfst (suffix & Hl & Hr)]; auto.
    split; [ exact Hfst | ].
    eexists. rewrite Hl, Hr, <- !app_assoc. split; reflexivity.
  - destruct (IH w w' (tr ++ [EvError label arg])%list (tr' ++ [EvError label arg])%list)
      as [Hfst (suffix & Hl & Hr)]; auto.
    split; [ exact Hfst | ].
    eexists. rewrite Hl, Hr, <- !app_assoc. split; reflexivity.
  - pose proof (Hprovider 0%nat) as Hnow. rewrite !Nat.add_0_r in Hnow.
    rewrite <- Hnow.
    destruct (IH (provider w (List.length tr)) w w'
                (tr ++ [EvFetch preq (provider w (List.length tr))])%list
                (tr' ++ [EvFetch preq (provider w (List.length tr))])%list)
      as [Hfst (suffix & Hl & Hr)]; auto.
    split; [ exact Hfst | ].
    eexists. rewrite Hl, Hr, <- !app_assoc. split; reflexivity.
Qed.

(** A POST to [/api/token] that the body parser and the CORS middleware
    pass on is answered by the token handler: after the request-log events
    of development mode, the run of the server is a run of the handler. *)
Lemma serve_token_endpoint :
  forall (w : world number) (cfg : config number) (req r1 r2 : request number),
    express_json X req = Next r1 ->
    cors X (cors_origin number_to_string cfg) true r1 = Next r2 ->
    req_method r2 = POST ->
    path_matches X "/api/token" (req_path r2) = true ->
    exists (n : nat) (prefix : list (event number)),
      outbound_calls prefix = []
      /\ snd (run w (serve cfg req) [])
         = (prefix ++ snd (token_run number_truthy (later n w) cfg r2))%list
      /\ match fst (token_run number_truthy (later n w) cfg r2) with
         | Respond r => fst (run w (serve cfg req) []) = Replied r
         | Unanswered e => fst (run w (serve cfg req) []) = NoReply e
         | _ => True
         end.
Proof.
  intros w cfg req r1 r2 Hjson Hcors Hmethod Hpath.
  unfold serve, Server.serve, app, Server.app, token_run.
  destruct (isProduction cfg) eqn:Hmode; cbn -[post_api_token]; unfold lift;
    rewrite Hjson; cbn -[post_api_token]; rewrite Hcors; cbn -[post_api_token];
    unfold route_matches; rewrite Hmethod, Hpath; cbn -[post_api_token];
    rewrite run_bind.
  - exists 0%nat, [].
    destruct (@run_suffix _ (post_api_token number_truthy cfg r2) w (later 0 w) [] [])
      as [Hfst (suffix & Hl & Hr)]; try (intros i; reflexivity).
    pose proof (token_handler_settles number_truthy (later 0 w) cfg r2) as Hsettles.
    unfold token_run in Hsettles.
    rewrite Hl, <- Hr, Hfst.
    split; [ reflexivity | ].
    destruct (fst (run (later 0 w) (post_api_token number_truthy cfg r2) []));
      try contradiction; cbn [run fst snd List.app]; split; reflexivity.
  - eexists 2%nat, [_; _].
    match goal with
    | |- context [run w (post_api_token number_truthy cfg r2) ?tr] =>
        destruct (@run_suffix _ (post_api_token number_truthy cfg r2)
                    w (later 2 w) tr [])
          as [Hfst (suffix & Hl & Hr)]; try (intros i; reflexivity)
    end.
    pose proof (token_handler_settles number_truthy (later 2 w) cfg r2) as Hsettles.
    unfold token_run in Hsettles.
    rewrite Hl, Hfst. cbn [List.app] in Hr. rewrite Hr.
    split;
      [ | destruct (fst (run (later 2 w) (post_api_token number_truthy cfg r2) []));
          try contradiction; cbn [run fst snd List.app]; split; reflexivity ].
    reflexivity.
Qed.

(** C7 (amended).  A request that the body parser and the CORS middleware
    pass on and that matches none of the three API routes is answered 404
    [{ error: "Not found" }] in non-production mode; in production mode it
    is answered so when the static-file middleware passes it on and its
    method is neither GET nor HEAD. *)
Theorem unmatched_route_not_found :
  forall (w : world number) (cfg : config number) (req r1 r2 : request number),
    express_json X req = Next r1 ->
    cors X (cors_origin number_to_string cfg) true r1 = Next r2 ->
    matches_defined_route X r2 = false ->
    (isProduction cfg = false \/
     (isProduction cfg = true /\
      exists r3, express_static X (clientDist X) r2 = Next r3 /\
                 method_handled GET (req_method r3) = false)) ->
    fst (run w (serve cfg req) [])
      = Replied (JsonResponse 404 (error_body "Not found")).
Proof.
  intros w cfg req r1 r2 Hjson Hcors Hroutes Hmode.
  unfold matches_defined_route in Hroutes.
  apply orb_false_elim in Hroutes as [Hroutes Hconfig].
  apply orb_false_elim in Hroutes as [Hhealth Htoken].
  unfold serve, Server.serve, app, Server.app.
  destruct Hmode as [Hdev | (Hprod & r3 & Hstatic & Hmethod)].
  - rewrite Hdev in *. cbn -[route_matches]. unfold lift.
    rewrite Hjson. cbn -[route_matches]. rewrite Hcors. cbn -[route_matches].
    rewrite Hhealth, Htoken, Hconfig. reflexivity.
  - rewrite Hprod in *. cbn -[route_matches]. unfold lift.
    rewrite Hjson. cbn -[route_matches]. rewrite Hcors. cbn -[route_matches].
    rewrite Hhealth, Htoken, Hconfig. cbn -[route_matches].
    rewrite Hstatic. cbn -[route_matches].
    unfold route_matches. rewrite Hmethod. reflexivity.
Qed.

(** In production mode an unmatched GET or HEAD request that the static
    middleware passes on is answered by the SPA fallback. *)
Lemma spa_fallback_intercepts :
  forall (w : world number) (cfg : config number) (req r1 r2 r3 : request number),
    isProduction cfg = true ->
    express_json X req = Next r1 ->
    cors X (cors_origin number_to_string cfg) true r1 = Next r2 ->
    matches_defined_route X r2 = false ->
    express_static X (clientDist X) r2 = Next r3 ->
    route_matches X GET "*" r3 = true ->
    fst (run w (serve cfg req) [])
      = Replied (SendFile (path_join X (clientDist X) "index.html")).
Proof.
  intros w cfg req r1 r2 r3 Hprod Hjson Hcors Hroutes Hstatic Hstar.
  unfold matches_defined_route in Hroutes.
  apply orb_false_elim in Hroutes as [Hroutes Hconfig].
  apply orb_false_elim in Hroutes as [Hhealth Htoken].
  unfold serve, Server.serve, app, Server.app.
  rewrite Hprod in *. cbn -[route_matches]. unfold lift.
  rewrite Hjson. cbn -[route_matches]. rewrite Hcors. cbn -[route_matches].
  rewrite Hhealth, Htoken, Hconfig. cbn -[route_matches].
  rewrite Hstatic. cbn -[route_matches].
  rewrite Hstar. reflexivity.
Qed.

End Application.

(* ===================================================================== *)
(** ** Properties of the client authentication sequence                   *)
(* ===================================================================== *)

Section Authentication.
Import Js Client.
Variable number : Type.
Variable number_truthy : number -> bool.
Variable clientId : string.

Local Abbreviation setup_from := (setup_from number_truthy clientId).

(** Case analysis on membership in an explicit trace. *)
Ltac in_trace H :=
  repeat (destruct H as [H | H]; [ try discriminate H | ]);
  try (destruct H; fail).

(** C9.  When the POST to [/api/token] comes back with a status outside
    200-299 (or does not come back at all), [setupDiscordSdk] throws, the
    session variables are what they were before the call, and
    [authenticate] is not called.  Started from the session of a freshly
    loaded module, [accessToken] and [currentUser] are both still [null]. *)
Theorem setup_aborts_on_token_failure :
  forall (H : host number) (s : session number)
         (url : string) (init : fetch_init number)
         (o : completion (http_response number)),
    In (EvFetch url init o) (snd (snd (setup_from H s))) ->
    match o with
    | Normal response => ok response = false
    | Throw _ => True
    end ->
    (exists e, fst (setup_from H s) = Throw e)
    /\ (forall response errorText,
          o = Normal response -> text response = Normal errorText ->
          fst (setup_from H s)
            = Throw (Error ("Failed to exchange code for token: "
                              ++ Z_to_string (status response))))
    /\ fst (snd (setup_from H s)) = s
    /\ authenticate_called (snd (snd (setup_from H s))) = false
    /\ (s = initial_session ->
        accessToken (fst (snd (setup_from H s))) = Js JNull
        /\ currentUser (fst (snd (setup_from H s))) = Js JNull).
Proof.
  intros H s url init o Hin Hfail.
  unfold setup_from, Client.setup_from, setupDiscordSdk in *.
  unfold bind, await, settle, debugLog, emit, ret, throw, bind in *.
  cbn in Hin |- *.
  destruct (sdk_ready H) as [ [] | e1 ]; cbn in Hin |- *;
    [ | in_trace Hin ].
  destruct (sdk_authorize H (authorize_request clientId)) as [ authorized | e2 ];
    cbn in Hin |- *; [ | in_trace Hin ].
  destruct (get_member authorized "code") as [ code | e3 ]; cbn in Hin |- *;
    [ | in_trace Hin ].
  destruct (fetch H "/api/token" (token_post code)) as [ response | e4 ];
    cbn in Hin |- *.
  - destruct (ok response) eqn:Hok; cbn in Hin |- *.
    + (* the answer was 2xx: the failing POST is not in the trace *)
      exfalso.
      assert (Hpost : o = Normal response).
      { clear Hfail.
        destruct (json_of response) as [ payload | e5 ]; cbn in Hin;
          [ | in_trace Hin; inversion Hin; reflexivity ].
        destruct (get_member (Js payload) "access_token") as [ token | e6 ];
          cbn in Hin; [ | in_trace Hin; inversion Hin; reflexivity ].
        destruct (sdk_authenticate H token) as [ auth | e7 ]; cbn in Hin;
          [ | in_trace Hin; inversion Hin; reflexivity ].
        destruct (truthy number_truthy auth); cbn in Hin;
          [ | in_trace Hin; inversion Hin; reflexivity ].
        destruct (get_member auth "user") as [ user | e8 ]; cbn in Hin;
          in_trace Hin; inversion Hin; reflexivity. }
      subst o. congruence.
    + destruct (text response) as [ errorText | e5 ] eqn:Htext; cbn in Hin |- *;
        in_trace Hin; inversion Hin; subst; clear Hin;
        (split; [ eexists; reflexivity | ]);
        (split; [ intros response' errorText' Ho Ht; inversion Ho; subst;
                  try congruence; reflexivity | ]);
        (split; [ destruct s; reflexivity | ]);
        (split; [ reflexivity | ]);
        intros ->; split; reflexivity.
  - in_trace Hin; inversion Hin; subst; clear Hin.
    split; [ eexists; reflexivity | ].
    split; [ intros response' errorText' Ho Ht; discriminate Ho | ].
    split; [ destruct s; reflexivity | ].
    split; [ reflexivity | ].
    intros ->; split; reflexivity.
Qed.

End Authentication.

(* ===================================================================== *)
(** ** Properties of the avatar URL builder                               *)
(* ===================================================================== *)

Section AvatarUrl.
Import Js Cdn.

Lemma digit_value_decimal :
  forall c, is_digit c = true -> digit_value 10 c = Some (code_unit c - 48).
Proof.
  intros c Hc. unfold is_digit in Hc. unfold digit_value. rewrite Hc.
  apply andb_prop in Hc as [Hlo Hhi].
  apply Z.leb_le in Hlo. apply Z.leb_le in Hhi.
  destruct (Z.ltb_spec (code_unit c - 48) 10); [ reflexivity | lia ].
Qed.

Lemma digit_not_white_space :
  forall c, is_digit c = true -> is_white_space c = false.
Proof.
  intros c Hc. unfold is_digit in Hc. unfold is_white_space.
  apply andb_prop in Hc as [Hlo Hhi].
  apply Z.leb_le in Hlo. apply Z.leb_le in Hhi.
  destruct (Z.leb_spec (code_unit c) 13); destruct (Z.leb_spec 9 (code_unit c));
    destruct (Z.eqb_spec (code_unit c) 32); destruct (Z.eqb_spec (code_unit c) 160);
    cbn; try reflexivity; lia.
Qed.

Lemma decimal_value_nonneg :
  forall s, all_digits s = true -> 0 <= decimal_value s.
Proof.
  induction s as [ | c rest IH ]; cbn [all_digits decimal_value]; intros Hs.
  - lia.
  - apply andb_prop in Hs as [Hc Hrest].
    unfold is_digit in Hc. apply andb_prop in Hc as [Hlo _].
    apply Z.leb_le in Hlo. specialize (IH Hrest).
    assert (0 <= 10 ^ Z.of_nat (String.length rest)) by (apply Z.pow_nonneg; lia).
    nia.
Qed.

(** Reading the digits from the left with an accumulator gives the value
    that the digits have by position. *)
Lemma digits_from_decimal :
  forall s acc,
    all_digits s = true ->
    digits_from 10 acc s
      = Some (acc * 10 ^ Z.of_nat (String.length s) + decimal_value s).
Proof.
  induction s as [ | c rest IH ]; intros acc Hs; cbn [all_digits] in Hs.
  - cbn. f_equal. lia.
  - apply andb_prop in Hs as [Hc Hrest].
    cbn [digits_from]. rewrite (digit_value_decimal c Hc).
    rewrite (IH _ Hrest). f_equal.
    cbn [String.length decimal_value].
    rewrite Nat2Z.inj_succ, Z.pow_succ_r by lia. ring.
Qed.

Lemma trim_end_digits :
  forall s, all_digits s = true -> trim_end s = s.
Proof.
  induction s as [ | c rest IH ]; cbn [all_digits trim_end]; intros Hs.
  - reflexivity.
  - apply andb_prop in Hs as [Hc Hrest].
    rewrite (IH Hrest), (digit_not_white_space c Hc), andb_false_r.
    reflexivity.
Qed.

Lemma trim_digits :
  forall s, all_digits s = true -> trim s = s.
Proof.
  intros s Hs. unfold trim.
  destruct s as [ | c rest ]; [ reflexivity | ].
  cbn [trim_start].
  pose proof Hs as Hs'. cbn [all_digits] in Hs'.
  apply andb_prop in Hs' as [Hc _].
  rewrite (digit_not_white_space c Hc).
  apply trim_end_digits; exact Hs.
Qed.

(** A digit is one of the ten characters. *)
Lemma digit_cases :
  forall c, is_digit c = true ->
    In c ["0"; "1"; "2"; "3"; "4"; "5"; "6"; "7"; "8"; "9"]%char.
Proof.
  intros [[] [] [] [] [] [] [] []] Hc; vm_compute in Hc; try discriminate Hc;
    cbn; tauto.
Qed.

(** On a string of decimal digits [BigInt] gives the value of the digits. *)
Lemma BigInt_decimal :
  forall s, is_decimal s = true -> BigInt s = Normal (decimal_value s).
Proof.
  intros s Hs. unfold is_decimal in Hs.
  apply andb_prop in Hs as [Hne Hdigits].
  unfold BigInt, StringToBigInt. rewrite (trim_digits s Hdigits).
  assert (Hvalue : digits 10 s = Some (decimal_value s)).
  { destruct s as [ | c rest ]; [ discriminate Hne | ].
    unfold digits. rewrite (digits_from_decimal _ 0 Hdigits). reflexivity. }
  destruct s as [ | c rest ]; [ discriminate Hne | ].
  pose proof Hdigits as Hd. cbn [all_digits] in Hd.
  apply andb_prop in Hd as [Hc Hrest].
  destruct (digit_cases c Hc) as [<- | [<- | [<- | [<- | [<- | [<- | [<- | [<- | [<- | [<- | []]]]]]]]]]];
    try (rewrite Hvalue; reflexivity).
  destruct rest as [ | c' rest' ]; [ reflexivity | ].
  cbn [all_digits] in Hrest. apply andb_prop in Hrest as [Hc' _].
  destruct (digit_cases c' Hc') as [<- | [<- | [<- | [<- | [<- | [<- | [<- | [<- | [<- | [<- | []]]]]]]]]]];
    rewrite Hvalue; reflexivity.
Qed.

Lemma defaultIndex_decimal :
  forall userId,
    is_decimal userId = true ->
    defaultIndex userId = Normal (decimal_value userId mod 5).
Proof.
  intros userId Hid. unfold defaultIndex. rewrite (BigInt_decimal userId Hid).
  f_equal. apply Z.rem_mod_nonneg; [ | lia ].
  apply decimal_value_nonneg.
  unfold is_decimal in Hid. apply andb_prop in Hid as [_ Hdigits]. exact Hdigits.
Qed.

Variable number : Type.
Variable number_to_string : number -> string.
Variable number_128 : number.

Local Abbreviation getUserAvatarUrl := (getUserAvatarUrl number_to_string number_128).

(** C5.  For a user ID written in decimal digits, of any length, the index
    of the default avatar is the value of the ID modulo 5, computed on
    unbounded integers, and the URL built for a [null] hash carries that
    index. *)
Theorem default_avatar_index_is_id_mod_5 :
  forall (userId : string) (size : option number),
    is_decimal userId = true ->
    defaultIndex userId = Normal (decimal_value userId mod 5)
    /\ getUserAvatarUrl userId None size
       = Normal ("https://cdn.discordapp.com/embed/avatars/"
                   ++ Z_to_string (decimal_value userId mod 5) ++ ".png").
Proof.
  intros userId size Hid.
  split; [ apply defaultIndex_decimal; exact Hid | ].
  unfold getUserAvatarUrl, Cdn.getUserAvatarUrl. cbn [present negb].
  rewrite (defaultIndex_decimal userId Hid). reflexivity.
Qed.

(** The five default-avatar URLs carry no query and no [size]. *)
Lemma default_avatar_url_has_no_size :
  forall i, 0 <= i < 5 ->
    includes "size" ("https://cdn.discordapp.com/embed/avatars/"
                       ++ Z_to_string i ++ ".png") = false
    /\ includes "?" ("https://cdn.discordapp.com/embed/avatars/"
                       ++ Z_to_string i ++ ".png") = false.
Proof.
  intros i Hi.
  assert (Hcases : i = 0 \/ i = 1 \/ i = 2 \/ i = 3 \/ i = 4) by lia.
  destruct Hcases as [-> | [-> | [-> | [-> | ->]]]]; split; vm_compute; reflexivity.
Qed.

(** C6 (amended).  For a user ID in decimal digits, a [null] hash gives the
    [embed/avatars/{index}.png] URL, which has no query string and no
    [size] parameter, whatever the size argument.  For every ID and every
    hash that is not the empty string, the result is the
    [avatars/{id}/{hash}.webp] URL ending in [?size=] and the size, which is
    128 when the caller leaves the size out. *)
Theorem avatar_url_size_parameter :
  forall (userId hash : string) (size : option number),
    is_decimal userId = true ->
    hash <> "" ->
    number_to_string number_128 = "128" ->
    let default_url := "https://cdn.discordapp.com/embed/avatars/"
                         ++ Z_to_string (decimal_value userId mod 5) ++ ".png" in
    getUserAvatarUrl userId None size = Normal default_url
    /\ includes "size" default_url = false
    /\ includes "?" default_url = false
    /\ (forall id : string,
          getUserAvatarUrl id (Some hash) size
            = Normal ("https://cdn.discordapp.com/avatars/" ++ id ++ "/" ++ hash
                        ++ ".webp?size="
                        ++ number_to_string (match size with
                                             | Some n => n
                                             | None => number_128
                                             end))
          /\ getUserAvatarUrl id (Some hash) None
              = Normal ("https://cdn.discordapp.com/avatars/" ++ id ++ "/" ++ hash
                          ++ ".webp?size=128")).
Proof.
  intros userId hash size Hid Hhash H128 default_url.
  assert (Hdefault : getUserAvatarUrl userId None size = Normal default_url).
  { unfold getUserAvatarUrl, Cdn.getUserAvatarUrl. cbn [present negb].
    rewrite (defaultIndex_decimal userId Hid). reflexivity. }
  destruct (default_avatar_url_has_no_size (i := decimal_value userId mod 5))
    as [Hsize Hquery].
  { apply Z.mod_pos_bound; lia. }
  repeat split; auto.
  - unfold getUserAvatarUrl, Cdn.getUserAvatarUrl. cbn [present].
    destruct (String.eqb_spec hash ""); [ contradiction | reflexivity ].
  - unfold getUserAvatarUrl, Cdn.getUserAvatarUrl. cbn [present].
    destruct (String.eqb_spec hash ""); [ contradiction | ].
    cbn [negb interpolate]. rewrite H128. reflexivity.
Qed.

End AvatarUrl.

(* ===================================================================== *)
(** ** The properties at concrete inputs                                  *)
(* ===================================================================== *)

Section Instances.
Import Js Server Scenario.

Local Abbreviation token_run := (token_run z_truthy).
Local Abbreviation serve := (serve z_truthy Z_to_string plain_express).

Lemma token_requires_code_witness :
  get_member (req_body (post_token (JObj []))) "code" = Normal undefined
  /\ fst (token_run (provider_says 200 (Normal JNull)) development (post_token (JObj [])))
     = Respond (JsonResponse 400 (error_body "Authorization code is required")).
Proof.
  split; [ reflexivity | ].
  apply (token_requires_code z_truthy
           (provider_says 200 (Normal JNull)) development (post_token (JObj []))).
  left; reflexivity.
Defined.

Lemma token_forwards_provider_error_witness :
  ok unauthorized = false
  /\ fst (token_run (answering (FetchResolves unauthorized)) development valid_code)
     = Respond (JsonResponse 401
         (JObj [("error", JStr "Failed to exchange token with Discord");
                ("details", JObj [("error", JStr "invalid_client")])])).
Proof.
  split; [ reflexivity | ].
  apply (token_forwards_provider_error z_truthy
           (answering (FetchResolves unauthorized)) development valid_code
           valid_code_call unauthorized).
  - cbn. left; reflexivity.
  - reflexivity.
Defined.

Lemma token_transport_failure_witness :
  In (EvFetch valid_code_call (FetchRejects connection_reset))
     (snd (token_run (answering (FetchRejects connection_reset)) development valid_code))
  /\ fst (token_run (answering (FetchRejects connection_reset)) development valid_code)
     = Respond (JsonResponse 500
         (error_body "Internal server error during token exchange")).
Proof.
  assert (Hin : In (EvFetch valid_code_call (FetchRejects connection_reset))
     (snd (token_run (answering (FetchRejects connection_reset)) development valid_code))).
  { cbn. left; reflexivity. }
  split; [ exact Hin | ].
  exact (proj1 (token_transport_failure z_truthy
                  (answering (FetchRejects connection_reset)) development valid_code
                  valid_code_call connection_reset Hin)).
Defined.

(** C4 as stated fails in non-production mode: the provider call throws
    ["fetch failed"], and the body carries the fixed message, not the
    message of the error. *)
Lemma token_transport_failure_is_generic_in_development :
  isProduction development = false
  /\ fst (token_run (answering (FetchRejects connection_reset)) development valid_code)
     = Respond (JsonResponse 500
         (error_body "Internal server error during token exchange"))
  /\ fst (token_run (answering (FetchRejects connection_reset)) development valid_code)
     <> Respond (JsonResponse 500 (error_body (err_message connection_reset))).
Proof.
  split; [ reflexivity | split; [ reflexivity | ] ].
  cbn. intros Heq. discriminate Heq.
Qed.

Lemma token_success_narrows_payload_witness :
  ok full_token_response = true
  /\ fst (token_run (answering (FetchResolves full_token_response)) development valid_code)
     = Respond (JsonResponse 200 (JObj [("access_token", JStr "tok_123")])).
Proof.
  split; [ reflexivity | ].
  assert (Hin : In (EvFetch valid_code_call (FetchResolves full_token_response))
     (snd (token_run (answering (FetchResolves full_token_response)) development valid_code))).
  { cbn. left; reflexivity. }
  destruct (token_success_narrows_payload z_truthy
              (answering (FetchResolves full_token_response)) development valid_code
              valid_code_call full_token_response Hin eq_refl) as [Hexact _].
  exact (Hexact _ (JStr "tok_123") eq_refl eq_refl).
Defined.

(** C1 as stated fails: a 2xx answer of the provider without
    [access_token] gives 200 with the body [{}], which has no field. *)
Lemma token_success_without_access_token :
  ok tokenless_response = true
  /\ In (EvFetch valid_code_call (FetchResolves tokenless_response))
       (snd (token_run (answering (FetchResolves tokenless_response)) development valid_code))
  /\ fst (token_run (answering (FetchResolves tokenless_response)) development valid_code)
     = Respond (JsonResponse 200 (JObj []))
  /\ field_names (JObj (@nil (string * json Z))) <> ["access_token"].
Proof.
  split; [ reflexivity | split; [ cbn; left; reflexivity | split; [ reflexivity | ] ] ].
  cbn. discriminate.
Qed.

Lemma token_success_not_validated_witness :
  ok tokenless_response = true
  /\ json_body tokenless_response = Normal (JObj [("refresh_token", JStr "r1")])
  /\ exists body,
       fst (token_run (answering (FetchResolves tokenless_response)) development valid_code)
         = Respond (JsonResponse 200 body)
       /\ has_field body "access_token" = false.
Proof.
  split; [ reflexivity | split; [ reflexivity | ] ].
  assert (Hin : In (EvFetch valid_code_call (FetchResolves tokenless_response))
     (snd (token_run (answering (FetchResolves tokenless_response)) development valid_code))).
  { cbn. left; reflexivity. }
  assert (Hnot_null : JObj [("refresh_token", @JStr Z "r1")] <> JNull)
    by discriminate.
  destruct (token_success_not_validated z_truthy
              (answering (FetchResolves tokenless_response)) development valid_code
              valid_code_call tokenless_response Hin eq_refl eq_refl Hnot_null)
    as (body & Hreply & Hmissing).
  exists body. split; [ exact Hreply | ].
  exact (proj2 (Hmissing eq_refl)).
Defined.

(** C10 as stated fails: a 2xx answer of the provider whose body is not
    JSON gives 500, not 200. *)
Lemma token_success_unparseable_body :
  ok unparseable_response = true
  /\ In (EvFetch valid_code_call (FetchResolves unparseable_response))
       (snd (token_run (answering (FetchResolves unparseable_response)) development valid_code))
  /\ fst (token_run (answering (FetchResolves unparseable_response)) development valid_code)
     = Respond (JsonResponse 500
         (error_body "Internal server error during token exchange")).
Proof.
  split; [ reflexivity | split; [ cbn; left; reflexivity | reflexivity ] ].
Qed.

Lemma unmatched_route_not_found_witness :
  matches_defined_route plain_express get_nowhere = false
  /\ isProduction development = false
  /\ fst (run (answering (FetchRejects connection_reset)) (serve development get_nowhere) [])
     = Replied (JsonResponse 404 (error_body "Not found")).
Proof.
  split; [ reflexivity | split; [ reflexivity | ] ].
  apply (@unmatched_route_not_found Z z_truthy Z_to_string plain_express
           (answering (FetchRejects connection_reset)) development
           get_nowhere get_nowhere get_nowhere).
  - reflexivity.
  - reflexivity.
  - reflexivity.
  - left; reflexivity.
Defined.

(** C7 as stated fails in production mode: an unmatched GET request is
    answered by the SPA fallback with [index.html], not by the 404
    handler. *)
Lemma unmatched_get_in_production :
  matches_defined_route plain_express get_nowhere = false
  /\ isProduction production = true
  /\ fst (run (answering (FetchRejects connection_reset)) (serve production get_nowhere) [])
     = Replied (SendFile "/srv/packages/server/src/../../client/dist/index.html")
  /\ fst (run (answering (FetchRejects connection_reset)) (serve production get_nowhere) [])
     <> Replied (JsonResponse 404 (error_body "Not found")).
Proof.
  split; [ reflexivity | split; [ reflexivity | split; [ reflexivity | ] ] ].
  cbn. discriminate.
Qed.

Lemma setup_aborts_on_token_failure_witness :
  Client.ok (Client.mkHttpResponse 500 (Normal "{}") (Normal (@JObj Z []))) = false
  /\ fst (Client.setup_from z_truthy "1234567890" (token_endpoint_says 500)
            Client.initial_session)
     = Throw (Error "Failed to exchange code for token: 500")
  /\ fst (snd (Client.setup_from z_truthy "1234567890" (token_endpoint_says 500)
                 Client.initial_session))
     = Client.initial_session.
Proof.
  split; [ reflexivity | ].
  assert (Hin : In (Client.EvFetch "/api/token"
                      (Client.token_post (Js (JStr "validcode")))
                      (Normal (Client.mkHttpResponse 500 (Normal "{}") (Normal (@JObj Z [])))))
                   (snd (snd (Client.setup_from z_truthy "1234567890"
                                (token_endpoint_says 500) Client.initial_session)))).
  { cbn. do 7 right. left. reflexivity. }
  destruct (@setup_aborts_on_token_failure Z z_truthy "1234567890"
              (token_endpoint_says 500) Client.initial_session
              _ _ _ Hin eq_refl) as (_ & Hmessage & Hsession & _).
  split; [ | exact Hsession ].
  exact (Hmessage _ _ eq_refl eq_refl).
Defined.

Lemma default_avatar_index_is_id_mod_5_witness :
  Cdn.is_decimal large_user_id = true
  /\ 2 ^ 53 < Cdn.decimal_value large_user_id
  /\ Cdn.defaultIndex large_user_id = Normal 3
  /\ Cdn.getUserAvatarUrl Z_to_string 128 large_user_id None None
     = Normal "https://cdn.discordapp.com/embed/avatars/3.png".
Proof.
  split; [ reflexivity | split; [ reflexivity | ] ].
  exact (@default_avatar_index_is_id_mod_5 Z Z_to_string 128 large_user_id None
           eq_refl).
Defined.

Lemma avatar_url_size_parameter_witness :
  Cdn.is_decimal "80351110224678912" = true
  /\ "abc123" <> ""
  /\ Z_to_string 128 = "128"
  /\ Cdn.getUserAvatarUrl Z_to_string 128 "80351110224678912" None (Some 256)
     = Normal "https://cdn.discordapp.com/embed/avatars/2.png"
  /\ Cdn.getUserAvatarUrl Z_to_string 128 "80351110224678912" (Some "abc123") None
     = Normal "https://cdn.discordapp.com/avatars/80351110224678912/abc123.webp?size=128".
Proof.
  assert (Hhash : "abc123" <> "") by discriminate.
  split; [ reflexivity | split; [ exact Hhash | split; [ reflexivity | ] ] ].
  destruct (@avatar_url_size_parameter Z Z_to_string 128
              "80351110224678912" "abc123" (Some 256) eq_refl Hhash eq_refl)
    as (Hdefault & _ & _ & Hcustom).
  split; [ exact Hdefault | ].
  exact (proj2 (Hcustom "80351110224678912")).
Defined.

(** C6 as stated fails for the hash [""], which is not [null]: the result
    is the default-avatar URL, without a [size] parameter. *)
Lemma avatar_url_for_empty_hash :
  Cdn.getUserAvatarUrl Z_to_string 128 "80351110224678912" (Some "") None
    = Normal "https://cdn.discordapp.com/embed/avatars/2.png"
  /\ Cdn.getUserAvatarUrl Z_to_string 128 "80351110224678912" (Some "") None
     <> Normal "https://cdn.discordapp.com/avatars/80351110224678912/.webp?size=128"
  /\ Cdn.includes "size" "https://cdn.discordapp.com/embed/avatars/2.png" = false.
Proof.
  split; [ reflexivity | split; [ | reflexivity ] ].
  vm_compute. discriminate.
Qed.

(** *** The end-to-end scenarios *)

(** POST [/api/token] with [{ "code": "validcode" }] against a provider
    returning [access_token], [refresh_token] and [scope]. *)
Example serve_valid_code :
  fst (run (answering (FetchResolves full_token_response)) (serve development valid_code) [])
    = Replied (JsonResponse 200 (JObj [("access_token", JStr "tok_123")])).
Proof. reflexivity. Qed.

(** POST [/api/token] with [{}]. *)
Example serve_empty_body :
  run (answering (FetchResolves full_token_response))
      (serve production (post_token (JObj []))) []
    = (Replied (JsonResponse 400 (error_body "Authorization code is required")), []).
Proof. reflexivity. Qed.

(** GET [/api/health]. *)
Example serve_health :
  fst (run (answering (FetchRejects connection_reset))
           (serve production {| req_method := GET; req_path := "/api/health";
                                req_body := undefined |}) [])
    = Replied (JsonResponse 200
        (JObj [("status", JStr "ok");
               ("app", JStr "Discord Mini App");
               ("timestamp", JStr "2024-01-01T00:00:00.000Z")])).
Proof. reflexivity. Qed.

(** GET [/api/config] gives the application name and the client ID. *)
Example serve_config :
  fst (run (answering (FetchRejects connection_reset))
           (serve development {| req_method := GET; req_path := "/api/config";
                                 req_body := undefined |}) [])
    = Replied (JsonResponse 200
        (JObj [("appName", JStr "Discord Mini App");
               ("clientId", JStr "1234567890")])).
Proof. reflexivity. Qed.

(** A body parser error reaches the global error handler, which shows the
    message of the error in development only. *)
Example serve_body_parser_error :
  let broken :=
    {| express_json := fun req => NextError (SyntaxError "Unexpected end of JSON input") req;
       cors := cors plain_express;
       express_static := express_static plain_express;
       path_matches := path_matches plain_express;
       path_join := path_join plain_express;
       dirname := dirname plain_express;
       finalhandler := finalhandler plain_express |} in
  fst (run (answering (FetchRejects connection_reset))
           (Server.serve z_truthy Z_to_string broken development valid_code) [])
    = Replied (JsonResponse 500 (error_body "Unexpected end of JSON input"))
  /\ fst (run (answering (FetchRejects connection_reset))
             (Server.serve z_truthy Z_to_string broken production valid_code) [])
     = Replied (JsonResponse 500 (error_body "Internal server error")).
Proof. split; reflexivity. Qed.

(** The float nearest to the ID of [large_user_id] has another remainder. *)
Example large_user_id_rounded :
  9007199254740992 mod 5 = 2 /\ Cdn.decimal_value large_user_id mod 5 = 3.
Proof. split; reflexivity. Qed.

End Instances.

(* ===================================================================== *)
(** ** More on the token handler                                          *)
(* ===================================================================== *)

Section TokenHandler.
Import Js Server.
Variable number : Type.
Variable number_truthy : number -> bool.

Local Abbreviation json := (json number).
Local Abbreviation jsval := (jsval number).
Local Abbreviation token_run := (token_run number_truthy).


(** The endpoint answers with a 2xx status on one path only: the provider
    answered 2xx.  The status is then 200 (also when the provider's was
    another 2xx), and the run consists of the provider call alone: nothing
    is written to the log. *)
Theorem token_2xx_only_on_success :
  forall (w : world number) (cfg : config number) (req : request number)
         (st : Z) (body : json),
    fst (token_run w cfg req) = Respond (JsonResponse st body) ->
    200 <= st <= 299 ->
    st = 200
    /\ exists (code : jsval) (presp : provider_response number),
         ok presp = true
         /\ snd (token_run w cfg req)
            = [EvFetch (token_request cfg code) (FetchResolves presp)].
Proof.
  intros w cfg req st body.
  unfold token_run, Server.token_run, post_api_token, token_exchange_error.
  destruct (get_member (req_body req) "code") as [code | e]; cbn;
    [ | discriminate ].
  destruct (truthy number_truthy code); cbn;
    [ | intros Hreply; inversion Hreply; lia ].
  destruct (provider w 0%nat) as [r | e]; cbn;
    [ | intros Hreply; inversion Hreply; lia ].
  destruct (ok r) eqn:Hok; cbn.
  - destruct (json_body r) as [tokenData | e]; cbn;
      [ | intros Hreply; inversion Hreply; lia ].
    destruct (get_member (Js tokenData) "access_token"); cbn;
      intros Hreply; inversion Hreply; try lia.
    intros _. split; [ reflexivity | ]. exists code, r. split; [ exact Hok | reflexivity ].
  - intros Hreply Hrange. inversion Hreply; subst.
    unfold ok in Hok. apply andb_false_iff in Hok as [Hlo | Hhi].
    + apply Z.leb_gt in Hlo. lia.
    + apply Z.leb_gt in Hhi. lia.
Qed.

End TokenHandler.

(* ===================================================================== *)
(** ** More on the application                                            *)
(* ===================================================================== *)

Section Routing.
Import Js Server.
Variable number : Type.
Variable number_truthy : number -> bool.
Variable number_to_string : number -> string.
Variable X : express number.

Local Abbreviation json := (json number).
Local Abbreviation jsval := (jsval number).
Local Abbreviation serve := (serve number_truthy number_to_string X).

(** Case analysis along every branch that one request can take through the
    stack of the application. *)
Ltac every_branch :=
  unfold serve, Server.serve, Server.app, lift, request_logger,
    get_api_health, get_api_config, spa_fallback, not_found,
    global_error_handler, post_api_token, token_exchange_error;
  repeat (cbn -[route_matches get_member truthy ok outbound_calls];
          match goal with
          | |- context [match ?x with _ => _ end] => destruct x eqn:?
          end);
  cbn -[route_matches get_member truthy ok].

(** Whatever the request, the middleware and the provider do, the server
    calls the identity provider at most once per request: a failed exchange
    is not retried. *)
Theorem serve_calls_provider_at_most_once :
  forall (w : world number) (cfg : config number) (req : request number),
    (List.length (outbound_calls (snd (run w (serve cfg req) []))) <= 1)%nat.
Proof.
  intros w cfg req. every_branch; lia.
Qed.

(** A call to the identity provider is made for one kind of request only:
    the body parser and the CORS middleware passed it on, it is a POST that
    matches [/api/token], and its [code] is truthy.  The call made is the
    token request for that code. *)
Theorem serve_calls_provider_only_for_token_post :
  forall (w : world number) (cfg : config number) (req : request number)
         (p : provider_request number),
    In p (outbound_calls (snd (run w (serve cfg req) []))) ->
    exists (r1 r2 : request number) (code : jsval),
      express_json X req = Next r1
      /\ cors X (cors_origin number_to_string cfg) true r1 = Next r2
      /\ route_matches X POST "/api/token" r2 = true
      /\ get_member (req_body r2) "code" = Normal code
      /\ truthy number_truthy code = true
      /\ p = token_request cfg code.
Proof.
  intros w cfg req p.
  every_branch; intros Hin;
    repeat match goal with
    | H : _ \/ _ |- _ => destruct H
    | H : False |- _ => destruct H
    | H : negb _ = false |- _ => apply negb_false_iff in H
    end;
    subst;
    do 3 eexists; repeat split; eauto.
Qed.

(** An error raised by the body parser or by the CORS middleware skips
    every route and the 404 handler and is answered by the global error
    handler: 500, with the message of the error in non-production mode and
    with a fixed message in production mode.  The error is logged and
    nothing else happens. *)
Theorem serve_middleware_error :
  forall (w : world number) (cfg : config number) (req r : request number)
         (e : error),
    (express_json X req = NextError e r
     \/ exists r1, express_json X req = Next r1
                   /\ cors X (cors_origin number_to_string cfg) true r1 = NextError e r) ->
    run w (serve cfg req) []
      = (Replied (JsonResponse 500
           (error_body (if isProduction cfg then "Internal server error"
                        else err_message e))),
         [EvError "Unhandled error:" (LogError e)]).
Proof.
  intros w cfg req r e [Hjson | (r1 & Hjson & Hcors)];
    unfold serve, Server.serve, Server.app, lift, global_error_handler;
    destruct (isProduction cfg) eqn:Hmode; cbn -[route_matches cors_origin];
    rewrite Hjson; cbn -[route_matches cors_origin]; try rewrite Hcors; reflexivity.
Qed.

(** [GET /api/health] (and [HEAD]) is answered by the health check in every
    mode and whatever the body: 200 with [status: "ok"], the application
    name and the time read when the answer is made; the provider is not
    called. *)
Theorem serve_health_check :
  forall (w : world number) (cfg : config number) (req r1 r2 : request number),
    express_json X req = Next r1 ->
    cors X (cors_origin number_to_string cfg) true r1 = Next r2 ->
    route_matches X GET "/api/health" r2 = true ->
    exists (t : string) (before : list (event number)),
      run w (serve cfg req) []
        = (Replied (JsonResponse 200
             (JObj [("status", JStr "ok");
                    ("app", JStr (appName cfg));
                    ("timestamp", JStr t)])),
           (before ++ [EvNow number t])%list)
      /\ outbound_calls before = [].
Proof.
  intros w cfg req r1 r2 Hjson Hcors Hroute.
  unfold serve, Server.serve, Server.app, lift, request_logger, get_api_health.
  destruct (isProduction cfg) eqn:Hmode; cbn -[route_matches cors_origin];
    rewrite Hjson; cbn -[route_matches cors_origin]; rewrite Hcors;
    cbn -[route_matches cors_origin]; rewrite Hroute; cbn.
  - exists (clock w 0%nat), []. split; reflexivity.
  - eexists (clock w 2%nat), [_; _]. split; reflexivity.
Qed.

(** Request logging: in production mode no request writes a log line; in
    non-production mode a request writes one line, with the time, the method
    and the path, exactly when the body parser and the CORS middleware both
    pass it on. *)
Theorem serve_request_log :
  forall (w : world number) (cfg : config number) (req : request number),
    Observe.log_lines (snd (run w (serve cfg req) []))
      = if isProduction cfg then []
        else match express_json X req with
             | Next r1 =>
                 match cors X (cors_origin number_to_string cfg) true r1 with
                 | Next r2 => [Observe.request_line (clock w 0%nat) r2]
                 | _ => []
                 end
             | _ => []
             end.
Proof.
  intros w cfg req. unfold Observe.request_line.
  unfold serve, Server.serve, Server.app, lift, request_logger,
    get_api_health, get_api_config, spa_fallback, not_found,
    global_error_handler, post_api_token, token_exchange_error.
  destruct (isProduction cfg) eqn:Hmode;
    cbn -[route_matches get_member truthy ok method_name cors_origin];
    destruct (express_json X req) as [? | r1 | ? ? | ?];
    cbn -[route_matches get_member truthy ok method_name cors_origin]; try reflexivity;
    match goal with
    | |- context [cors X ?o true r1] =>
        destruct (cors X o true r1) as [? | r2 | ? ? | ?]
    end;
    cbn -[route_matches get_member truthy ok method_name cors_origin]; try reflexivity;
    repeat (cbn -[route_matches get_member truthy ok method_name Observe.log_lines cors_origin];
            match goal with
            | |- context [match ?x with _ => _ end] => destruct x eqn:?
            end);
    reflexivity.
Qed.

End Routing.

(* ===================================================================== *)
(** ** Start-up configuration                                             *)
(* ===================================================================== *)

Section Startup.
Import Js Server.
Variable number : Type.
Variable parseInt10 : string -> number.

Lemma present_iff :
  forall v : option string,
    present v = true <-> exists s, v = Some s /\ s <> "".
Proof.
  intros [s | ]; cbn.
  - destruct (String.eqb_spec s ""); cbn; split.
    + discriminate.
    + intros (s' & Hs & Hne). inversion Hs; subst. contradiction.
    + intros _. exists s. split; [ reflexivity | assumption ].
    + reflexivity.
  - split; [ discriminate | intros (s & Hs & _); discriminate ].
Qed.

(** The server starts exactly when [VITE_CLIENT_ID] and [CLIENT_SECRET] are
    both set and not empty.  The configuration of a started server holds
    these two values unchanged, is in production mode exactly for
    [NODE_ENV=production], and has an application name that is not empty
    (an [APP_NAME] that is unset or empty gives the default name). *)
Theorem load_config_starts :
  forall (env : string -> option string),
    (load_config parseInt10 env = None <->
       present (env "VITE_CLIENT_ID") = false \/ present (env "CLIENT_SECRET") = false)
    /\ forall cfg : config number,
         load_config parseInt10 env = Some cfg ->
         env "VITE_CLIENT_ID" = Some (clientId cfg) /\ clientId cfg <> ""
         /\ env "CLIENT_SECRET" = Some (clientSecret cfg) /\ clientSecret cfg <> ""
         /\ (isProduction cfg = true <-> env "NODE_ENV" = Some "production")
         /\ appName cfg <> ""
         /\ (present (env "APP_NAME") = false -> appName cfg = "Discord Mini App").
Proof.
  intros env. unfold load_config.
  destruct (present (env "VITE_CLIENT_ID")) eqn:Hid;
    destruct (present (env "CLIENT_SECRET")) eqn:Hsecret; cbn [negb orb].
  2-4: split; [ split; auto | intros cfg Hcfg; discriminate Hcfg ].
  split.
  - split; [ discriminate | intros [H | H]; discriminate H ].
  - intros cfg Hcfg. inversion Hcfg; subst cfg; clear Hcfg. cbn.
    apply present_iff in Hid as (id & Hid & Hid_ne).
    apply present_iff in Hsecret as (secret & Hsecret & Hsecret_ne).
    rewrite Hid, Hsecret. cbn.
    destruct (String.eqb_spec id ""); [ contradiction | ].
    destruct (String.eqb_spec secret ""); [ contradiction | ].
    repeat split; auto.
    + destruct (env "NODE_ENV") as [mode | ]; [ | discriminate ].
      intros Hmode. apply String.eqb_eq in Hmode. congruence.
    + destruct (env "NODE_ENV") as [mode | ]; [ | discriminate ].
      intros Hmode. inversion Hmode; subst. reflexivity.
    + destruct (env "APP_NAME") as [name | ]; cbn; [ | discriminate ].
      destruct (String.eqb_spec name ""); [ discriminate | assumption ].
    + destruct (env "APP_NAME") as [name | ]; cbn; [ | reflexivity ].
      destruct (String.eqb_spec name ""); [ reflexivity | discriminate ].
Qed.

End Startup.

(* ===================================================================== *)
(** ** More on the client                                                 *)
(* ===================================================================== *)

Section Handshake.
Import Js Client ClientApi.
Variable number : Type.
Variable number_truthy : number -> bool.
Variable number_to_string : number -> string.
Variable clientId : string.

Local Abbreviation json := (json number).
Local Abbreviation jsval := (jsval number).
Local Abbreviation setup_from := (setup_from number_truthy clientId).
Local Abbreviation args := (authorize_request clientId).

(** A truthy value can be read from. *)
Lemma truthy_get_member :
  forall (v : jsval) (key : string),
    truthy number_truthy v = true -> exists m, get_member v key = Normal m.
Proof.
  intros [ | [ | b | n | s | items | members ]] key Hv; cbn in Hv;
    try discriminate Hv; eexists; reflexivity.
Qed.

(** Unfolding the sequence along the outcome of each call. *)
Ltac handshake H leaf :=
  unfold setup_from, Client.setup_from, setupDiscordSdk;
  unfold bind, await, settle, debugLog, emit, ret, throw, bind,
    set_accessToken, set_currentUser;
  cbn;
  destruct (sdk_ready H) as [ [] | ? ] eqn:?; cbn;
  [ destruct (sdk_authorize H args) as [ authorized | ? ] eqn:?; cbn;
    [ destruct (get_member authorized "code") as [ code | ? ] eqn:?; cbn;
      [ destruct (fetch H "/api/token" (token_post code)) as [ response | ? ] eqn:?;
        cbn;
        [ destruct (ok response) eqn:?; cbn;
          [ destruct (json_of response) as [ payload | ? ] eqn:?; cbn;
            [ destruct (get_member (Js payload) "access_token")
                as [ token | ? ] eqn:?; cbn;
              [ destruct (sdk_authenticate H token) as [ auth | ? ] eqn:?; cbn;
                [ destruct (truthy number_truthy auth) eqn:?; cbn;
                  [ destruct (get_member auth "user") as [ user | ? ] eqn:?; cbn;
                    leaf
                  | leaf ]
                | leaf ]
              | leaf ]
            | leaf ]
          | destruct (text response) as [ errorText | ? ] eqn:?; cbn; leaf ]
        | leaf ]
      | leaf ]
    | leaf ]
  | leaf ].

(** The four steps are strictly ordered: in every run the calls made are
    [ready], [authorize], the POST and [authenticate] in this order, cut
    short after the first one that fails; no step is repeated or skipped. *)
Theorem setup_steps_in_order :
  forall (H : host number) (s : session number),
    exists n : nat,
      (1 <= n)%nat
      /\ calls_of (snd (snd (setup_from H s)))
         = firstn n [CallReady; CallAuthorize; CallFetch; CallAuthenticate].
Proof.
  intros H s.
  handshake H ltac:(
    first [ exists 1%nat; split; [ lia | reflexivity ]
          | exists 2%nat; split; [ lia | reflexivity ]
          | exists 3%nat; split; [ lia | reflexivity ]
          | exists 4%nat; split; [ lia | reflexivity ] ]).
Qed.

(** When the first three steps succeed and the token endpoint's JSON has
    the member [access_token], that value is stored in [accessToken] before
    [authenticate] is called with it.  If [authenticate] resolves, the
    function returns the token; [currentUser] becomes the [user] of the
    result when the result is truthy and is left as it was when the result
    is falsy, which is not an error. *)
Theorem setup_success :
  forall (H : host number) (s : session number)
         (authorized code token auth : jsval)
         (response : http_response number) (payload : json),
    sdk_ready H = Normal tt ->
    sdk_authorize H args = Normal authorized ->
    get_member authorized "code" = Normal code ->
    fetch H "/api/token" (token_post code) = Normal response ->
    ok response = true ->
    json_of response = Normal payload ->
    get_member (Js payload) "access_token" = Normal token ->
    sdk_authenticate H token = Normal auth ->
    fst (setup_from H s) = Normal token
    /\ accessToken (fst (snd (setup_from H s))) = token
    /\ (truthy number_truthy auth = false ->
        currentUser (fst (snd (setup_from H s))) = currentUser s)
    /\ (truthy number_truthy auth = true ->
        exists user, get_member auth "user" = Normal user
                     /\ currentUser (fst (snd (setup_from H s))) = user).
Proof.
  intros H s authorized code token auth response payload
         Hready Hauthorize Hcode Hfetch Hok Hjson Htoken Hauth.
  unfold setup_from, Client.setup_from, setupDiscordSdk.
  unfold bind, await, settle, debugLog, emit, ret, throw, bind,
    set_accessToken, set_currentUser.
  cbn. rewrite Hready. cbn. rewrite Hauthorize. cbn. rewrite Hcode. cbn.
  rewrite Hfetch. cbn. rewrite Hok. cbn. rewrite Hjson. cbn. rewrite Htoken.
  cbn. rewrite Hauth. cbn.
  destruct (truthy number_truthy auth) eqn:Htruthy; cbn.
  - destruct (truthy_get_member auth "user" Htruthy) as [user Huser].
    rewrite Huser. cbn.
    repeat split; try discriminate. intros _. exists user. split; reflexivity.
  - repeat split; discriminate.
Qed.

(** A failure of step 4 is not rolled back: when [authenticate] rejects,
    the function throws that error, [currentUser] is unchanged, and
    [accessToken] keeps the token that was stored before the call. *)
Theorem setup_authenticate_failure :
  forall (H : host number) (s : session number)
         (authorized code token : jsval)
         (response : http_response number) (payload : json) (e : error),
    sdk_ready H = Normal tt ->
    sdk_authorize H args = Normal authorized ->
    get_member authorized "code" = Normal code ->
    fetch H "/api/token" (token_post code) = Normal response ->
    ok response = true ->
    json_of response = Normal payload ->
    get_member (Js payload) "access_token" = Normal token ->
    sdk_authenticate H token = Throw e ->
    fst (setup_from H s) = Throw e
    /\ accessToken (fst (snd (setup_from H s))) = token
    /\ currentUser (fst (snd (setup_from H s))) = currentUser s.
Proof.
  intros H s authorized code token response payload e
         Hready Hauthorize Hcode Hfetch Hok Hjson Htoken Hauth.
  unfold setup_from, Client.setup_from, setupDiscordSdk.
  unfold bind, await, settle, debugLog, emit, ret, throw, bind,
    set_accessToken, set_currentUser.
  cbn. rewrite Hready. cbn. rewrite Hauthorize. cbn. rewrite Hcode. cbn.
  rewrite Hfetch. cbn. rewrite Hok. cbn. rewrite Hjson. cbn. rewrite Htoken.
  cbn. rewrite Hauth. cbn. repeat split.
Qed.

Lemma setup_post_flow :
  forall (H : host number) (s : session number) url init o,
    In (EvFetch url init o) (snd (snd (setup_from H s))) ->
    url = "/api/token"
    /\ exists authorized code,
         sdk_authorize H args = Normal authorized
         /\ get_member authorized "code" = Normal code
         /\ init = token_post code
         /\ body init = JObj (stringify_object [("code", code)]).
Proof.
  intros H s url init o.
  handshake H ltac:(
    intros Hin;
    repeat (destruct Hin as [Hin | Hin]; [ try discriminate Hin | ]);
    try (destruct Hin; fail));
  inversion Hin; subst; clear Hin;
  (split; [ reflexivity | ]);
  do 2 eexists; repeat split; eauto.
Qed.

Lemma setup_authenticate_flow :
  forall (H : host number) (s : session number) token o,
    In (EvAuthenticate token o) (snd (snd (setup_from H s))) ->
    accessToken (fst (snd (setup_from H s))) = token
    /\ exists init response payload,
         In (EvFetch "/api/token" init (Normal response))
            (snd (snd (setup_from H s)))
         /\ ok response = true
         /\ json_of response = Normal payload
         /\ get_member (Js payload) "access_token" = Normal token.
Proof.
  intros H s token' o.
  handshake H ltac:(
    intros Hin;
    repeat (destruct Hin as [Hin | Hin]; [ try discriminate Hin | ]);
    try (destruct Hin; fail));
  inversion Hin; subst; clear Hin;
  (split; [ reflexivity | ]);
  do 3 eexists; (split; [ | repeat split; eauto ]);
  cbn; do 7 right; left; reflexivity.
Qed.

(** What is sent where.  The POST goes to [/api/token] and its body is
    [{ code }] with the code that [authorize] returned.  [authenticate] is
    called only with the [access_token] member of the JSON that a 2xx answer
    of that POST carried, and that value is the one stored in
    [accessToken]. *)
Theorem setup_data_flow :
  forall (H : host number) (s : session number),
    (forall url init o,
        In (EvFetch url init o) (snd (snd (setup_from H s))) ->
        url = "/api/token"
        /\ exists authorized code,
             sdk_authorize H args = Normal authorized
             /\ get_member authorized "code" = Normal code
             /\ init = token_post code
             /\ body init = JObj (stringify_object [("code", code)]))
    /\ (forall token o,
          In (EvAuthenticate token o) (snd (snd (setup_from H s))) ->
          accessToken (fst (snd (setup_from H s))) = token
          /\ exists init response payload,
               In (EvFetch "/api/token" init (Normal response))
                  (snd (snd (setup_from H s)))
               /\ ok response = true
               /\ json_of response = Normal payload
               /\ get_member (Js payload) "access_token" = Normal token).
Proof.
  intros H s.
  split; [ apply setup_post_flow | apply setup_authenticate_flow ].
Qed.

End Handshake.

(* ===================================================================== *)
(** ** The Discord API helpers                                            *)
(* ===================================================================== *)

Section GuildInfo.
Import Js Client ClientApi.
Variable number : Type.
Variable number_truthy : number -> bool.
Variable number_to_string : number -> string.
Variable S : sdk number.

Local Abbreviation json := (json number).
Local Abbreviation jsval := (jsval number).
Local Abbreviation getGuildInfo := (getGuildInfo number_truthy number_to_string S).
Local Abbreviation find_guild := (find_guild S).
Local Abbreviation gid := (string_of (guildId S)).

Lemma is_string_iff :
  forall (v : jsval) (s : string), is_string v s = true <-> v = Js (JStr s).
Proof.
  intros [ | [ | b | n | t | items | members ]] s; cbn;
    try (split; [ discriminate | intros Heq; discriminate Heq ]).
  rewrite String.eqb_eq. split; [ intros -> | intros Heq; inversion Heq ]; reflexivity.
Qed.

(** A value with a string [id] is an object, hence truthy. *)
Lemma id_holder_truthy :
  forall (g : json) (id : string),
    get_member (Js g) "id" = Normal (Js (JStr id)) ->
    truthy number_truthy (Js g) = true /\ g <> JNull.
Proof.
  intros [ | b | n | t | items | members ] id Hid; cbn in Hid;
    try discriminate Hid.
  split; [ reflexivity | discriminate ].
Qed.

(** [find] returns the first element whose [id] is the guild ID, provided
    that reading [id] from the elements before it does not throw. *)
Lemma find_guild_first :
  forall (items : list json) (g : json),
    find_guild items = Normal (Js g) <->
    exists before after,
      items = (before ++ g :: after)%list
      /\ get_member (Js g) "id" = Normal (Js (JStr gid))
      /\ Forall (fun x => exists id, get_member (Js x) "id" = Normal id
                                     /\ id <> Js (JStr gid)) before.
Proof.
  induction items as [ | x rest IH ]; intros g; cbn [ClientApi.find_guild].
  - split; [ discriminate | ].
    intros (before & after & Hitems & _). destruct before; discriminate Hitems.
  - destruct (get_member (Js x) "id") as [ id | e ] eqn:Hid.
    + destruct (is_string id gid) eqn:Hmatch.
      * apply is_string_iff in Hmatch. subst id. split.
        -- intros Hfound. inversion Hfound; subst x.
           exists [], rest. repeat split; auto.
        -- intros ([ | y before ] & after & Hitems & Hg & Hbefore).
           ++ cbn in Hitems. inversion Hitems; subst. reflexivity.
           ++ cbn in Hitems. inversion Hitems; subst y.
              inversion Hbefore as [ | ? ? (id' & Hid' & Hne) _ ]; subst.
              congruence.
      * split.
        -- intros Hfound. apply IH in Hfound as (before & after & -> & Hg & Hbefore).
           exists (x :: before), after. repeat split; auto.
           constructor; [ | exact Hbefore ].
           exists id. split; [ exact Hid | ].
           intros ->. rewrite (proj2 (is_string_iff _ _) eq_refl) in Hmatch.
           discriminate Hmatch.
        -- intros ([ | y before ] & after & Hitems & Hg & Hbefore).
           ++ cbn in Hitems. inversion Hitems; subst x.
              rewrite Hg in Hid. inversion Hid; subst id.
              rewrite (proj2 (is_string_iff _ _) eq_refl) in Hmatch.
              discriminate Hmatch.
           ++ cbn in Hitems. inversion Hitems; subst y rest.
              apply IH. exists before, after. repeat split; auto.
              inversion Hbefore; assumption.
    + split; [ discriminate | ].
      intros ([ | y before ] & after & Hitems & Hg & Hbefore).
      * cbn in Hitems. inversion Hitems; subst x. congruence.
      * cbn in Hitems. inversion Hitems; subst y.
        inversion Hbefore as [ | ? ? (id' & Hid' & _) _ ]; subst. congruence.
Qed.

(** With a token and a guild ID at hand and a 2xx answer carrying a JSON
    array, [getGuildInfo] returns a guild exactly when the array holds an
    element whose [id] is the guild ID, and it returns the first such
    element; a [null] element in front of it makes the result [null]. *)
Theorem getGuildInfo_first_match :
  forall (s : session number) (response : http_response number)
         (items : list json) (g : json),
    truthy number_truthy (accessToken s) = true ->
    present (guildId S) = true ->
    fetch_authorized S guilds_url ("Bearer " ++ to_string number_to_string (accessToken s))
      = Normal response ->
    ok response = true ->
    json_of response = Normal (JArr items) ->
    (fst (getGuildInfo s) = Js g /\ g <> JNull) <->
    exists before after,
      items = (before ++ g :: after)%list
      /\ get_member (Js g) "id" = Normal (Js (JStr gid))
      /\ Forall (fun x => exists id, get_member (Js x) "id" = Normal id
                                     /\ id <> Js (JStr gid)) before.
Proof.
  intros s response items g Htoken Hguild Hfetch Hok Hjson.
  rewrite <- find_guild_first.
  unfold getGuildInfo, ClientApi.getGuildInfo.
  rewrite Htoken, Hguild. cbn [negb orb]. rewrite Hfetch, Hok. cbn [negb].
  rewrite Hjson. cbn [find_in].
  destruct (find_guild items) as [ [ | found ] | e ] eqn:Hfind; cbn [fst].
  - split; [ intros [Heq Hne]; inversion Heq; congruence | discriminate ].
  - pose proof (proj1 (find_guild_first items found) Hfind)
      as (before & after & _ & Hid & _).
    destruct (id_holder_truthy found Hid) as [Htruthy Hne].
    rewrite Htruthy. split.
    + intros [Heq _]. inversion Heq; reflexivity.
    + intros Heq. inversion Heq; subst. split; [ reflexivity | exact Hne ].
  - split; [ intros [Heq Hne]; inversion Heq; congruence | discriminate ].
Qed.

End GuildInfo.

(* ===================================================================== *)
(** ** The client and the server together                                 *)
(* ===================================================================== *)

Section EndToEnd.
Import Js.
Variable number : Type.
Variable number_truthy : number -> bool.
Variable number_to_string : number -> string.
Variable clientId : string.

Local Abbreviation json := (json number).
Local Abbreviation jsval := (jsval number).
Local Abbreviation setup_from := (Client.setup_from number_truthy clientId).
Local Abbreviation args := (Client.authorize_request clientId).
Local Abbreviation token_run := (Server.token_run number_truthy).

(** The request that the server's handler sees for the client's POST with
    the code [code]. *)
Local Abbreviation posted code :=
  (Server.mkRequest Server.POST "/api/token"
     (Js (Client.body (Client.token_post (number := number) code)))).



End EndToEnd.

(* ===================================================================== *)
(** ** From the handshake to the Discord API                              *)
(* ===================================================================== *)

Section AfterSetup.
Import Js Client ClientApi.
Variable number : Type.
Variable number_truthy : number -> bool.
Variable number_to_string : number -> string.
Variable clientId : string.
Variable S : sdk number.

Local Abbreviation json := (json number).
Local Abbreviation jsval := (jsval number).
Local Abbreviation setup_from := (setup_from number_truthy clientId).
Local Abbreviation args := (authorize_request clientId).
Local Abbreviation getGuildInfo := (getGuildInfo number_truthy number_to_string S).

(** The session changes only in a run that reaches [authenticate]. *)
Lemma setup_without_authenticate :
  forall (H : host number) (s : session number),
    authenticate_called (snd (snd (setup_from H s))) = false ->
    fst (snd (setup_from H s)) = s.
Proof.
  intros H s.
  unfold setup_from, Client.setup_from, setupDiscordSdk.
  unfold bind, await, settle, debugLog, emit, ret, throw, bind,
    set_accessToken, set_currentUser.
  cbn.
  destruct (sdk_ready H) as [ [] | ? ]; cbn; [ | destruct s; reflexivity ].
  destruct (sdk_authorize H args) as [ authorized | ? ]; cbn;
    [ | destruct s; reflexivity ].
  destruct (get_member authorized "code") as [ code | ? ]; cbn;
    [ | destruct s; reflexivity ].
  destruct (fetch H "/api/token" (token_post code)) as [ response | ? ]; cbn;
    [ | destruct s; reflexivity ].
  destruct (ok response); cbn.
  - destruct (json_of response) as [ payload | ? ]; cbn;
      [ | destruct s; reflexivity ].
    destruct (get_member (Js payload) "access_token") as [ token | ? ]; cbn;
      [ | destruct s; reflexivity ].
    destruct (sdk_authenticate H token) as [ auth | ? ]; cbn;
      [ | discriminate ].
    destruct (truthy number_truthy auth); cbn; [ | discriminate ].
    destruct (get_member auth "user"); cbn; discriminate.
  - destruct (text response); cbn; destruct s; reflexivity.
Qed.

(** Without a token there is no request to the Discord API: after a run of
    [setupDiscordSdk] from a freshly loaded module that did not reach
    [authenticate], [getGuildInfo] returns [null] and makes no call. *)
Theorem no_token_no_guild_request :
  forall (H : host number),
    authenticate_called (snd (snd (setup_from H initial_session))) = false ->
    getGuildInfo (fst (snd (setup_from H initial_session))) = (Js JNull, []).
Proof.
  intros H Hnot_called.
  rewrite (setup_without_authenticate H initial_session Hnot_called).
  reflexivity.
Qed.

(** The token stored by the handshake is stored whether or not
    [authenticate] then succeeds. *)
Lemma setup_stores_token :
  forall (H : host number) (s : session number)
         (authorized code token : jsval)
         (response : http_response number) (payload : json),
    sdk_ready H = Normal tt ->
    sdk_authorize H args = Normal authorized ->
    get_member authorized "code" = Normal code ->
    fetch H "/api/token" (token_post code) = Normal response ->
    ok response = true ->
    json_of response = Normal payload ->
    get_member (Js payload) "access_token" = Normal token ->
    accessToken (fst (snd (setup_from H s))) = token.
Proof.
  intros H s authorized code token response payload
         Hready Hauthorize Hcode Hfetch Hok Hjson Htoken.
  unfold setup_from, Client.setup_from, setupDiscordSdk.
  unfold bind, await, settle, debugLog, emit, ret, throw, bind,
    set_accessToken, set_currentUser.
  cbn. rewrite Hready. cbn. rewrite Hauthorize. cbn. rewrite Hcode. cbn.
  rewrite Hfetch. cbn. rewrite Hok. cbn. rewrite Hjson. cbn. rewrite Htoken.
  cbn.
  destruct (sdk_authenticate H token) as [ auth | e ]; cbn; [ | reflexivity ].
  destruct (truthy number_truthy auth); cbn; [ | reflexivity ].
  destruct (get_member auth "user"); reflexivity.
Qed.

(** The bearer token sent to the Discord API is the token of the handshake:
    when the token endpoint returned the string [t] as [access_token], the
    next [getGuildInfo] (inside a guild) makes exactly one request, to the
    guilds URL, with the header [Authorization: Bearer t]. *)
Theorem guild_request_carries_token :
  forall (H : host number) (s : session number)
         (authorized code : jsval) (t : string)
         (response : http_response number) (payload : json),
    sdk_ready H = Normal tt ->
    sdk_authorize H args = Normal authorized ->
    get_member authorized "code" = Normal code ->
    fetch H "/api/token" (token_post code) = Normal response ->
    ok response = true ->
    json_of response = Normal payload ->
    get_member (Js payload) "access_token" = Normal (Js (JStr t)) ->
    t <> "" ->
    present (guildId S) = true ->
    exists rest,
      snd (getGuildInfo (fst (snd (setup_from H s))))
        = ApiFetch guilds_url ("Bearer " ++ t)
            (fetch_authorized S guilds_url ("Bearer " ++ t)) :: rest
      /\ Forall (fun e => match e with ApiFetch _ _ _ => False | _ => True end) rest.
Proof.
  intros H s authorized code t response payload
         Hready Hauthorize Hcode Hfetch Hok Hjson Htoken Ht Hguild.
  unfold getGuildInfo, ClientApi.getGuildInfo.
  rewrite (setup_stores_token H s Hready Hauthorize Hcode Hfetch Hok Hjson Htoken).
  rewrite Hguild. cbn [truthy to_string json_to_string].
  destruct (String.eqb_spec t ""); [ contradiction | ]. cbn [negb orb].
  destruct (fetch_authorized S guilds_url ("Bearer " ++ t)) as [ r | e ];
    [ | eexists; split; [ reflexivity | repeat constructor ] ].
  destruct (ok r); cbn [negb];
    [ | eexists; split; [ reflexivity | repeat constructor ] ].
  destruct (json_of r) as [ guilds | e ];
    [ | eexists; split; [ reflexivity | repeat constructor ] ].
  destruct (find_in S guilds);
    eexists; (split; [ reflexivity | repeat constructor ]).
Qed.

End AfterSetup.

(* ===================================================================== *)
(** ** Properties of the command-line tools                               *)
(* ===================================================================== *)

Section EnvironmentChecks.
Import Js Cli.

Lemma required_errors_nil :
  forall (env : string -> option string) (key desc : string),
    required_errors env (key, desc) = [] <-> acceptable (env key) = true.
Proof.
  intros env key desc. unfold required_errors, acceptable.
  destruct (unset (env key)); cbn [negb andb]; [ split; discriminate | ].
  destruct (is_placeholder (value_of (env key))); cbn [negb andb];
    [ split; discriminate | ].
  destruct (Nat.ltb_spec (String.length (value_of (env key))) 10).
  - split; [ discriminate | ].
    intros Hlen. apply Nat.leb_le in Hlen. lia.
  - split; [ intros _; apply Nat.leb_le; assumption | reflexivity ].
Qed.

Lemma required_all_acceptable :
  forall env : string -> option string,
    flat_map (required_errors env) required = [] <->
    acceptable (env "VITE_CLIENT_ID") = true
    /\ acceptable (env "CLIENT_SECRET") = true.
Proof.
  intros env. unfold required. cbn [flat_map]. rewrite app_nil_r.
  split.
  - intros Hnil. apply app_eq_nil in Hnil as [Hid Hsecret].
    split; eapply required_errors_nil; eassumption.
  - intros [Hid Hsecret].
    rewrite (proj2 (required_errors_nil env _ "Discord Client ID") Hid).
    rewrite (proj2 (required_errors_nil env _ "Discord Client Secret") Hsecret).
    reflexivity.
Qed.

(** [validateEnv] reports [valid] exactly when it reports no error, on
    each of its three return paths; and that is exactly when the [.env]
    file can be read and parsed and both required variables are set, are not
    placeholders and have ten characters at least.  The optional variables
    give warnings and never change the verdict. *)
Theorem validateEnv_valid :
  forall (sys : system) (rootDir : string),
    (valid (validateEnv sys rootDir) = true <-> errors (validateEnv sys rootDir) = [])
    /\ (valid (validateEnv sys rootDir) = true <->
        access sys (path_join sys rootDir ".env") = true
        /\ exists parsed,
             dotenv_config sys (path_join sys rootDir ".env") = DotenvParsed parsed
             /\ acceptable (parsed_or_empty parsed "VITE_CLIENT_ID") = true
             /\ acceptable (parsed_or_empty parsed "CLIENT_SECRET") = true).
Proof.
  intros sys rootDir. unfold validateEnv.
  destruct (access sys (path_join sys rootDir ".env")); cbn [negb].
  - destruct (dotenv_config sys (path_join sys rootDir ".env")) as [ e | parsed ];
      cbn [valid errors].
    + split; split; try discriminate.
      intros (_ & parsed & Hparsed & _). discriminate Hparsed.
    + assert (Hlen : Nat.eqb
                (List.length (flat_map (required_errors (parsed_or_empty parsed)) required)) 0
                = true
              <-> flat_map (required_errors (parsed_or_empty parsed)) required = []).
      { rewrite Nat.eqb_eq. apply length_zero_iff_nil. }
      split; [ exact Hlen | ].
      rewrite Hlen, required_all_acceptable. split.
      * intros [Hid Hsecret]. split; [ reflexivity | ].
        exists parsed. repeat split; assumption.
      * intros (_ & parsed' & Hparsed & Hid & Hsecret).
        inversion Hparsed; subst. split; assumption.
  - cbn [valid errors]. split; split; try discriminate.
    intros (Haccess & _). discriminate Haccess.
Qed.

Lemma acceptable_present :
  forall v : option string,
    acceptable v = true -> exists s, v = Some s /\ s <> "".
Proof.
  intros [s | ]; unfold acceptable; cbn; [ | discriminate ].
  destruct (String.eqb_spec s ""); cbn; [ discriminate | ].
  intros _. exists s. split; [ reflexivity | assumption ].
Qed.

(** An environment that [validateEnv] accepts lets the server start: when
    the verdict is [valid] and the process environment holds the two required
    variables as the [.env] file gives them, the start-up check of the
    server passes and the server runs with these values. *)
Theorem validateEnv_valid_starts_server :
  forall (sys : system) (rootDir : string)
         (parsed : option (string -> option string))
         (number : Type) (parseInt10 : string -> number)
         (process_env : string -> option string),
    valid (validateEnv sys rootDir) = true ->
    dotenv_config sys (path_join sys rootDir ".env") = DotenvParsed parsed ->
    process_env "VITE_CLIENT_ID" = parsed_or_empty parsed "VITE_CLIENT_ID" ->
    process_env "CLIENT_SECRET" = parsed_or_empty parsed "CLIENT_SECRET" ->
    exists cfg : Server.config number,
      Server.load_config parseInt10 process_env = Some cfg
      /\ process_env "VITE_CLIENT_ID" = Some (Server.clientId cfg)
      /\ process_env "CLIENT_SECRET" = Some (Server.clientSecret cfg).
Proof.
  intros sys rootDir parsed number parseInt10 process_env
         Hvalid Hparsed Hid Hsecret.
  unfold validateEnv in Hvalid.
  destruct (access sys (path_join sys rootDir ".env")); cbn [negb] in Hvalid;
    [ | discriminate Hvalid ].
  rewrite Hparsed in Hvalid. cbn [valid] in Hvalid.
  apply Nat.eqb_eq, length_zero_iff_nil, required_all_acceptable in Hvalid
    as [Hid_ok Hsecret_ok].
  apply acceptable_present in Hid_ok as (id & Hid_some & Hid_ne).
  apply acceptable_present in Hsecret_ok as (secret & Hsecret_some & Hsecret_ne).
  rewrite Hid_some in Hid. rewrite Hsecret_some in Hsecret.
  unfold Server.load_config. rewrite Hid, Hsecret. cbn.
  destruct (String.eqb_spec id ""); [ contradiction | ].
  destruct (String.eqb_spec secret ""); [ contradiction | ].
  cbn. eexists. split; [ reflexivity | ]. cbn. split; reflexivity.
Qed.

(** The wizard and [validateEnv] agree on the length of a credential:
    credentials that the wizard's two validators accept and that contain
    neither ["your_"] nor ["_here"] pass [validateEnv] once they are the
    values of the [.env] file. *)
Theorem wizard_credentials_pass_validateEnv :
  forall (sys : system) (rootDir : string)
         (env : string -> option string) (id secret : string),
    access sys (path_join sys rootDir ".env") = true ->
    dotenv_config sys (path_join sys rootDir ".env") = DotenvParsed (Some env) ->
    env "VITE_CLIENT_ID" = Some id ->
    env "CLIENT_SECRET" = Some secret ->
    validate_client_id id = Accepted ->
    validate_client_secret secret = Accepted ->
    is_placeholder id = false ->
    is_placeholder secret = false ->
    valid (validateEnv sys rootDir) = true
    /\ errors (validateEnv sys rootDir) = [].
Proof.
  intros sys rootDir env id secret Haccess Hparsed Hid Hsecret
         Hwizard_id Hwizard_secret Hplain_id Hplain_secret.
  assert (Haccept : forall v label,
            (if (v =? "")%string || (String.length v <? 10)%nat
             then Rejected label else Accepted) = Accepted ->
            is_placeholder v = false ->
            acceptable (Some v) = true).
  { intros v label Hv Hplain. unfold acceptable.
    cbn [unset value_of]. rewrite Hplain.
    destruct (v =? "")%string; cbn [orb negb andb] in Hv |- *;
      [ discriminate Hv | ].
    destruct (Nat.ltb_spec (String.length v) 10); [ discriminate Hv | ].
    apply Nat.leb_le. assumption. }
  assert (Herrors : errors (validateEnv sys rootDir) = []).
  { unfold validateEnv. rewrite Haccess, Hparsed. cbn [negb errors parsed_or_empty].
    apply required_all_acceptable. rewrite Hid, Hsecret.
    split; eapply Haccept; eassumption. }
  split; [ | exact Herrors ].
  unfold validateEnv in *. rewrite Haccess, Hparsed in *.
  cbn [negb valid errors parsed_or_empty] in *. rewrite Herrors. reflexivity.
Qed.

(** *** [checkEnvironment] *)

Lemma required_flags :
  forall (env : string -> option string) (entries : list (string * string))
         (p : progress),
    hasErrors (fold_left (check_required env) entries p)
      = hasErrors p || existsb (fun entry => not_configured (env (fst entry))) entries
    /\ hasWarnings (fold_left (check_required env) entries p) = hasWarnings p.
Proof.
  intros env entries.
  induction entries as [ | [key desc] rest IH ]; intros p; cbn [fold_left existsb].
  - rewrite orb_false_r. split; reflexivity.
  - destruct (IH (check_required env p (key, desc))) as [-> ->].
    cbn [check_required fst].
    destruct (not_configured (env key)); cbn; split;
      rewrite ?orb_true_r; reflexivity.
Qed.

Lemma optional_flags :
  forall (env : string -> option string)
         (entries : list (string * (string * string))) (p : progress),
    hasErrors (fold_left (check_optional env) entries p) = hasErrors p.
Proof.
  intros env entries.
  induction entries as [ | [key [desc defaultVal]] rest IH ]; intros p;
    cbn [fold_left]; [ reflexivity | ].
  rewrite IH. cbn [check_optional].
  destruct (unset (env key)); reflexivity.
Qed.

Lemma file_flags :
  forall (sys : system) (rootDir : string) (files : list (string * string))
         (p : progress),
    hasErrors (fold_left (check_file sys rootDir) files p)
      = hasErrors p
        || existsb (fun file => negb (access sys (path_join sys rootDir (fst file))))
             files.
Proof.
  intros sys rootDir files.
  induction files as [ | [path desc] rest IH ]; intros p; cbn [fold_left existsb].
  - rewrite orb_false_r. reflexivity.
  - rewrite IH. cbn [check_file fst].
    destruct (access sys (path_join sys rootDir path)); cbn;
      rewrite ?orb_true_r; reflexivity.
Qed.

Lemma exit_code_of_check :
  forall (sys : system) (rootDir : string),
    snd (checkEnvironment sys rootDir)
      = if failing sys rootDir then Some 1 else None.
Proof.
  intros sys rootDir. unfold checkEnvironment, failing.
  set (files := requiredFiles).
  set (node_modules := access sys (path_join sys rootDir "node_modules")).
  destruct (access sys (path_join sys rootDir ".env")); cbn [negb orb].
  - destruct (dotenv_config sys (path_join sys rootDir ".env")) as [ e | parsed ].
    + cbn [orb].
      match goal with
      | |- context [hasErrors ?p] =>
          assert (Herr : hasErrors p = true)
      end.
      { destruct node_modules; cbn [hasErrors log flag_warning];
          rewrite file_flags; reflexivity. }
      rewrite Herr. reflexivity.
    + match goal with
      | |- context [if hasErrors ?p then _ else _] =>
          assert (Herr : hasErrors p
                         = existsb (fun entry =>
                               not_configured (parsed_or_empty parsed (fst entry)))
                             required
                           || existsb (fun file =>
                                 negb (access sys (path_join sys rootDir (fst file))))
                               files)
      end.
      { destruct node_modules; cbn [hasErrors log flag_warning];
          rewrite file_flags; cbn [hasErrors log];
          rewrite optional_flags;
          rewrite (proj1 (required_flags _ _ _)); reflexivity. }
      rewrite Herr.
      match goal with
      | |- context [if ?b then _ else _] => destruct b
      end; [ reflexivity | ].
      match goal with
      | |- context [if ?b then _ else _] => destruct b
      end; reflexivity.
  - match goal with
    | |- context [hasErrors ?p] =>
        assert (Herr : hasErrors p = true)
    end.
    { destruct node_modules; cbn [hasErrors log flag_warning];
        rewrite file_flags; reflexivity. }
    rewrite Herr. reflexivity.
Qed.

(** [checkEnvironment] ends with [process.exit(1)] exactly when the [.env]
    file is missing or cannot be parsed, a required variable is not
    configured, or a required project file is missing.  Unset optional
    variables and a missing [node_modules] give warnings only. *)
Theorem checkEnvironment_exit :
  forall (sys : system) (rootDir : string),
    snd (checkEnvironment sys rootDir)
      = if failing sys rootDir then Some 1 else None.
Proof.
  exact exit_code_of_check.
Qed.

Lemma acceptable_configured :
  forall v : option string, acceptable v = true -> not_configured v = false.
Proof.
  intros v. unfold acceptable, not_configured.
  destruct (unset v); cbn [negb andb orb]; [ discriminate | ].
  destruct (is_placeholder (value_of v)); cbn [negb andb]; [ discriminate | ].
  reflexivity.
Qed.

(** [validateEnv] is at least as strict as [check-env] about the [.env]
    file: in an environment that [validateEnv] accepts, [checkEnvironment]
    fails only when one of the four required project files is missing. *)
Theorem validateEnv_valid_passes_check_env :
  forall (sys : system) (rootDir : string),
    valid (validateEnv sys rootDir) = true ->
    snd (checkEnvironment sys rootDir)
      = if existsb (fun file => negb (access sys (path_join sys rootDir (fst file))))
             requiredFiles
        then Some 1 else None.
Proof.
  intros sys rootDir Hvalid.
  rewrite exit_code_of_check. unfold failing.
  unfold validateEnv in Hvalid.
  destruct (access sys (path_join sys rootDir ".env")); cbn [negb] in Hvalid;
    [ | discriminate Hvalid ].
  destruct (dotenv_config sys (path_join sys rootDir ".env")) as [ e | parsed ];
    [ discriminate Hvalid | ].
  cbn [valid] in Hvalid.
  apply Nat.eqb_eq, length_zero_iff_nil, required_all_acceptable in Hvalid
    as [Hid Hsecret].
  unfold required. cbn [existsb fst negb orb].
  rewrite (acceptable_configured _ Hid), (acceptable_configured _ Hsecret).
  reflexivity.
Qed.

(** *** Masking *)

Lemma string_length_app :
  forall a b : string, String.length (a ++ b) = (String.length a + String.length b)%nat.
Proof.
  induction a as [ | c a IH ]; intros b; cbn; [ reflexivity | ].
  rewrite IH. reflexivity.
Qed.

Lemma string_app_assoc :
  forall a b c : string, ((a ++ b) ++ c = a ++ (b ++ c))%string.
Proof.
  induction a as [ | x a IH ]; intros b c; cbn; [ reflexivity | ].
  rewrite IH. reflexivity.
Qed.

Lemma substring_skip :
  forall (a b : string) (n : nat),
    substring (String.length a) n (a ++ b) = substring 0 n b.
Proof.
  induction a as [ | c a IH ]; intros b n; cbn; [ reflexivity | apply IH ].
Qed.

Lemma substring_prefix :
  forall (a b : string), substring 0 (String.length a) (a ++ b) = a.
Proof.
  induction a as [ | c a IH ]; intros b; cbn.
  - destruct b; reflexivity.
  - rewrite IH. reflexivity.
Qed.

Lemma substring_all :
  forall q : string, substring 0 (String.length q) q = q.
Proof.
  induction q as [ | c q IH ]; cbn; [ reflexivity | ].
  rewrite IH. reflexivity.
Qed.

(** Of a value of eight characters or more, the masked form shows the
    first four and the last four characters and nothing of what lies
    between them. *)
Lemma masked_hides_middle :
  forall p m q : string,
    String.length p = 4%nat -> String.length q = 4%nat ->
    masked (p ++ m ++ q) = p ++ "..." ++ q.
Proof.
  intros p m q Hp Hq. unfold masked.
  rewrite <- Hp at 1. rewrite substring_prefix.
  assert (Hlen : (String.length (p ++ m ++ q) - 4 = String.length (p ++ m))%nat).
  { rewrite !string_length_app. lia. }
  rewrite Hlen.
  assert (Hcount : (String.length (p ++ m ++ q) - String.length (p ++ m)
                    = String.length q)%nat).
  { rewrite !string_length_app. lia. }
  rewrite Hcount.
  rewrite <- (string_app_assoc p m q), substring_skip, substring_all.
  reflexivity.
Qed.

(** [check-env] does not show what lies between the first four and the
    last four characters of the client secret: two [.env] files whose
    secrets are configured and differ in these middle characters only give
    the same output, line for line, and the same exit code. *)
Theorem checkEnvironment_masks_secret :
  forall (sys : system) (rootDir : string)
         (env1 env2 : string -> option string) (p m1 m2 q : string),
    String.length p = 4%nat ->
    String.length q = 4%nat ->
    env1 "CLIENT_SECRET" = Some (p ++ m1 ++ q) ->
    env2 "CLIENT_SECRET" = Some (p ++ m2 ++ q) ->
    is_placeholder (p ++ m1 ++ q) = false ->
    is_placeholder (p ++ m2 ++ q) = false ->
    (forall key, key <> "CLIENT_SECRET" -> env1 key = env2 key) ->
    checkEnvironment (with_env sys env1) rootDir
      = checkEnvironment (with_env sys env2) rootDir.
Proof.
  intros sys rootDir env1 env2 p m1 m2 q Hp Hq Henv1 Henv2 Hplain1 Hplain2 Hagree.
  assert (Hset : forall m, unset (Some (p ++ m ++ q)) = false).
  { intros m. destruct p as [ | c p ]; [ discriminate Hp | reflexivity ]. }
  assert (Hrequired : forall p0,
            fold_left (check_required env1) required p0
              = fold_left (check_required env2) required p0).
  { intros p0. unfold required. cbn [fold_left check_required].
    rewrite (Hagree "VITE_CLIENT_ID") by discriminate.
    rewrite Henv1, Henv2. unfold not_configured.
    rewrite !Hset. cbn [value_of orb]. rewrite Hplain1, Hplain2.
    rewrite !masked_hides_middle by assumption. reflexivity. }
  assert (Hoptional : forall p0,
            fold_left (check_optional env1) optionalVars p0
              = fold_left (check_optional env2) optionalVars p0).
  { intros p0. unfold optionalVars. cbn [fold_left check_optional].
    rewrite (Hagree "APP_NAME") by discriminate.
    rewrite (Hagree "PORT") by discriminate. reflexivity. }
  unfold checkEnvironment.
  cbn [with_env access dotenv_config path_join parsed_or_empty].
  cbv zeta.
  destruct (access sys (path_join sys rootDir ".env")); [ | reflexivity ].
  rewrite !Hrequired, !Hoptional. reflexivity.
Qed.

(** *** Short values *)

Lemma substring_whole :
  forall (v : string) (n : nat),
    (String.length v <= n)%nat -> substring 0 n v = v.
Proof.
  induction v as [ | c v IH ]; intros n Hn.
  - destruct n; reflexivity.
  - destruct n as [ | n ]; cbn in Hn |- *; [ lia | ].
    rewrite IH by lia. reflexivity.
Qed.

Lemma masked_short :
  forall v : string, (String.length v <= 4)%nat -> masked v = v ++ "..." ++ v.
Proof.
  intros v Hv. unfold masked.
  rewrite (substring_whole v Hv).
  replace (String.length v - 4)%nat with 0%nat by lia.
  rewrite Nat.sub_0_r, substring_all. reflexivity.
Qed.

Lemma written_log :
  forall (l l' : line) (p : progress),
    In l (written p) -> In l (written (log l' p)).
Proof.
  intros l l' p Hin. cbn. apply in_or_app. left; exact Hin.
Qed.

Lemma written_fold :
  forall (A : Type) (f : progress -> A -> progress),
    (forall l p a, In l (written p) -> In l (written (f p a))) ->
    forall (entries : list A) (l : line) (p : progress),
      In l (written p) -> In l (written (fold_left f entries p)).
Proof.
  intros A f Hf entries.
  induction entries as [ | a rest IH ]; intros l p Hin; cbn [fold_left]; auto.
Qed.

Lemma written_check_required :
  forall env l p entry, In l (written p) -> In l (written (check_required env p entry)).
Proof.
  intros env l p [key desc] Hin. cbn [check_required].
  destruct (not_configured (env key)); cbn [written flag_error];
    apply written_log; exact Hin.
Qed.

Lemma written_check_optional :
  forall env l p entry, In l (written p) -> In l (written (check_optional env p entry)).
Proof.
  intros env l p [key [desc defaultVal]] Hin. cbn [check_optional].
  destruct (unset (env key)); cbn [written flag_warning];
    apply written_log; exact Hin.
Qed.

Lemma written_check_file :
  forall sys rootDir l p file,
    In l (written p) -> In l (written (check_file sys rootDir p file)).
Proof.
  intros sys rootDir l p [path desc] Hin. cbn [check_file].
  destruct (access sys (path_join sys rootDir path)); cbn [written flag_error];
    apply written_log; exact Hin.
Qed.

(** The mask needs more than eight characters to hide anything, and
    [check-env] does not check the length: a configured client secret of at
    most four characters is printed in full (twice, around the dots). *)
Theorem checkEnvironment_shows_short_secret :
  forall (sys : system) (rootDir : string)
         (env : string -> option string) (v : string),
    access sys (path_join sys rootDir ".env") = true ->
    env "CLIENT_SECRET" = Some v ->
    not_configured (Some v) = false ->
    (String.length v <= 4)%nat ->
    In (Green, "✓ CLIENT_SECRET: " ++ v ++ "..." ++ v)
       (fst (checkEnvironment (with_env sys env) rootDir)).
Proof.
  intros sys rootDir env v Haccess Henv Hconfigured Hshort.
  unfold checkEnvironment.
  cbn [with_env access dotenv_config path_join parsed_or_empty].
  cbv zeta. rewrite Haccess.
  assert (Hline : forall p0,
            In (Green, "✓ CLIENT_SECRET: " ++ v ++ "..." ++ v)
               (written (fold_left (check_required env) required p0))).
  { intros p0. unfold required. cbn [fold_left].
    set (p1 := check_required env p0 ("VITE_CLIENT_ID", "Discord Client ID")).
    cbn [check_required]. rewrite Henv, Hconfigured.
    cbn [value_of]. rewrite (masked_short v Hshort).
    cbn [log written]. apply in_or_app. right. left. reflexivity. }
  match goal with
  | |- context [fold_left (check_required env) required ?p0] =>
      specialize (Hline p0);
      set (after_required := fold_left (check_required env) required p0) in *
  end.
  assert (Hkept : forall p1,
            In (Green, "✓ CLIENT_SECRET: " ++ v ++ "..." ++ v) (written p1) ->
            forall b : bool,
              In (Green, "✓ CLIENT_SECRET: " ++ v ++ "..." ++ v)
                 (written
                    (if b then log (Green, "✓ node_modules found") p1
                     else flag_warning
                            (log (Gray, "  Run " ++ quote ++ "npm install" ++ quote
                                          ++ " to install dependencies")
                               (log (Yellow, "⚠ node_modules not found") p1))))).
  { intros p1 Hin [ | ]; cbn [written flag_warning]; repeat apply written_log;
      exact Hin. }
  repeat match goal with
  | |- context [if ?b then _ else _] =>
      match b with
      | hasErrors _ => destruct b
      | hasWarnings _ => destruct b
      end
  end; cbn [fst]; repeat apply written_log;
    apply Hkept;
    apply written_log;
    apply (written_fold (check_file sys rootDir) (written_check_file sys rootDir));
    apply written_log;
    apply (written_fold (check_optional env) (written_check_optional env));
    exact Hline.
Qed.

End EnvironmentChecks.

(* ===================================================================== *)
(** ** The logger of the command-line tools                               *)
(* ===================================================================== *)

Section Logger.
Import Js Cli.

Lemma split_lines_nonempty :
  forall text, split_lines text <> [].
Proof.
  induction text as [ | c rest IH ]; cbn; [ discriminate | ].
  destruct (is_LF c); [ discriminate | ].
  destruct (split_lines rest); discriminate.
Qed.

Lemma split_lines_one_line :
  forall text, Forall (fun l => one_line l = true) (split_lines text).
Proof.
  induction text as [ | c rest IH ]; cbn [split_lines].
  - constructor; [ reflexivity | constructor ].
  - destruct (is_LF c) eqn:Hc.
    + constructor; [ reflexivity | exact IH ].
    + destruct (split_lines rest) as [ | first others ].
      * constructor; [ cbn; rewrite Hc; reflexivity | constructor ].
      * inversion IH; subst. constructor; [ | assumption ].
        cbn. rewrite Hc. assumption.
Qed.

Lemma split_lines_single :
  forall text, one_line text = true -> split_lines text = [text].
Proof.
  induction text as [ | c rest IH ]; cbn; [ reflexivity | ].
  intros Hline. apply andb_prop in Hline as [Hc Hrest].
  apply negb_true_iff in Hc. rewrite Hc, (IH Hrest). reflexivity.
Qed.

Lemma split_lines_break :
  forall before after,
    one_line before = true ->
    split_lines (before ++ LF ++ after) = before :: split_lines after.
Proof.
  induction before as [ | c rest IH ]; intros after Hline.
  - reflexivity.
  - cbn in Hline. apply andb_prop in Hline as [Hc Hrest].
    apply negb_true_iff in Hc.
    cbn [append split_lines]. rewrite Hc.
    change (rest ++ String "010" after) with (rest ++ LF ++ after).
    rewrite (IH after Hrest). reflexivity.
Qed.

Lemma indented_lines :
  forall lines : list string,
    lines <> [] ->
    Forall (fun l => one_line l = true) lines ->
    split_lines ("  " ++ String.concat (LF ++ "  ") lines)
      = map (fun l => "  " ++ l) lines.
Proof.
  induction lines as [ | l rest IH ]; intros Hne Hlines; [ contradiction | ].
  inversion Hlines as [ | ? ? Hl Hrest ]; subst.
  destruct rest as [ | l' rest ].
  - cbn [String.concat map]. apply split_lines_single. cbn. exact Hl.
  - change (String.concat (LF ++ "  ") (l :: l' :: rest))
      with (l ++ (LF ++ "  ") ++ String.concat (LF ++ "  ") (l' :: rest)).
    rewrite map_cons.
    specialize (IH ltac:(discriminate) Hrest).
    set (tail := String.concat (LF ++ "  ") (l' :: rest)) in *.
    clearbody tail.
    replace ("  " ++ l ++ (LF ++ "  ") ++ tail)
      with (("  " ++ l) ++ LF ++ ("  " ++ tail)).
    + rewrite split_lines_break by (cbn; exact Hl).
      rewrite IH. reflexivity.
    + reflexivity.
Qed.

(** [logger.code] indents every line of a code block: the lines of the
    printed text are the lines of the content, each after two spaces; their
    number and their order are kept, empty lines included. *)
Theorem logger_code_indents_each_line :
  forall content : string,
    fst (logger_code content) = Gray
    /\ split_lines (snd (logger_code content))
       = map (fun l => "  " ++ l) (split_lines content).
Proof.
  intros content. split; [ reflexivity | ].
  unfold logger_code. cbn [snd].
  apply indented_lines.
  - apply split_lines_nonempty.
  - apply split_lines_one_line.
Qed.

End Logger.

(* ===================================================================== *)
(** ** The further properties at concrete inputs                          *)
(* ===================================================================== *)

Section MoreInstances.
Import Js Server Scenario.

Local Abbreviation token_run := (token_run z_truthy).
Local Abbreviation serve := (serve z_truthy Z_to_string plain_express).


Lemma token_2xx_only_on_success_witness :
  fst (token_run (answering (FetchResolves created)) development valid_code)
    = Respond (JsonResponse 200 (JObj [("access_token", JStr "tok_123")]))
  /\ 200 <= 200 <= 299
  /\ status created = 201
  /\ exists code presp,
       ok presp = true
       /\ snd (token_run (answering (FetchResolves created)) development valid_code)
          = [EvFetch (token_request development code) (FetchResolves presp)].
Proof.
  split; [ reflexivity | split; [ lia | split; [ reflexivity | ] ] ].
  refine (proj2 (@token_2xx_only_on_success Z z_truthy
                   (answering (FetchResolves created)) development valid_code
                   200 (JObj [("access_token", JStr "tok_123")]) eq_refl _)).
  lia.
Defined.

Lemma serve_calls_provider_only_for_token_post_witness :
  In valid_code_call
     (outbound_calls (snd (run (answering (FetchResolves unauthorized))
                             (serve development valid_code) [])))
  /\ exists r1 r2 code,
       express_json plain_express valid_code = Next r1
       /\ cors plain_express (cors_origin Z_to_string development) true r1 = Next r2
       /\ route_matches plain_express POST "/api/token" r2 = true
       /\ get_member (req_body r2) "code" = Normal code
       /\ truthy z_truthy code = true
       /\ valid_code_call = token_request development code.
Proof.
  assert (Hin : In valid_code_call
     (outbound_calls (snd (run (answering (FetchResolves unauthorized))
                             (serve development valid_code) [])))).
  { cbn. left; reflexivity. }
  split; [ exact Hin | ].
  exact (@serve_calls_provider_only_for_token_post Z z_truthy Z_to_string
           plain_express (answering (FetchResolves unauthorized)) development
           valid_code valid_code_call Hin).
Defined.

Lemma serve_middleware_error_witness :
  express_json rejecting_express valid_code = NextError malformed_body valid_code
  /\ run (answering (FetchResolves unauthorized))
       (Server.serve z_truthy Z_to_string rejecting_express production valid_code) []
     = (Replied (JsonResponse 500 (error_body "Internal server error")),
        [EvError "Unhandled error:" (LogError malformed_body)]).
Proof.
  split; [ reflexivity | ].
  exact (@serve_middleware_error Z z_truthy Z_to_string rejecting_express
           (answering (FetchResolves unauthorized)) production
           valid_code valid_code malformed_body (or_introl eq_refl)).
Defined.

Lemma serve_health_check_witness :
  route_matches plain_express GET "/api/health" get_health = true
  /\ exists t before,
       run (answering (FetchRejects connection_reset)) (serve production get_health) []
         = (Replied (JsonResponse 200
              (JObj [("status", JStr "ok");
                     ("app", JStr "Discord Mini App");
                     ("timestamp", JStr t)])),
            (before ++ [EvNow Z t])%list)
       /\ outbound_calls before = [].
Proof.
  split; [ reflexivity | ].
  exact (@serve_health_check Z z_truthy Z_to_string plain_express
           (answering (FetchRejects connection_reset)) production
           get_health get_health get_health eq_refl eq_refl eq_refl).
Defined.

Local Abbreviation setup_from := (Client.setup_from z_truthy "1234567890").

Lemma setup_success_witness :
  Client.sdk_authenticate (host_with_token authenticated) (Js (JStr "tok_123"))
    = authenticated
  /\ fst (setup_from (host_with_token authenticated) Client.initial_session)
     = Normal (Js (JStr "tok_123"))
  /\ Client.accessToken
       (fst (snd (setup_from (host_with_token authenticated) Client.initial_session)))
     = Js (JStr "tok_123").
Proof.
  split; [ reflexivity | ].
  destruct (@setup_success Z z_truthy "1234567890"
              (host_with_token authenticated) Client.initial_session
              (Js (JObj [("code", JStr "validcode")])) (Js (JStr "validcode"))
              (Js (JStr "tok_123")) (Js (JObj [("user", some_user)]))
              {| Client.status := 200; Client.text := Normal "";
                 Client.json_of := Normal (JObj [("access_token", JStr "tok_123")]) |}
              (JObj [("access_token", JStr "tok_123")])
              eq_refl eq_refl eq_refl eq_refl eq_refl eq_refl eq_refl eq_refl)
    as (Hresult & Htoken & _).
  split; assumption.
Defined.

Lemma setup_authenticate_failure_witness :
  Client.sdk_authenticate (host_with_token (Throw sdk_closed)) (Js (JStr "tok_123"))
    = Throw sdk_closed
  /\ fst (setup_from (host_with_token (Throw sdk_closed)) Client.initial_session)
     = Throw sdk_closed
  /\ Client.accessToken
       (fst (snd (setup_from (host_with_token (Throw sdk_closed)) Client.initial_session)))
     = Js (JStr "tok_123")
  /\ Client.currentUser
       (fst (snd (setup_from (host_with_token (Throw sdk_closed)) Client.initial_session)))
     = Js JNull.
Proof.
  split; [ reflexivity | ].
  exact (@setup_authenticate_failure Z z_truthy "1234567890"
           (host_with_token (Throw sdk_closed)) Client.initial_session
           (Js (JObj [("code", JStr "validcode")])) (Js (JStr "validcode"))
           (Js (JStr "tok_123"))
           {| Client.status := 200; Client.text := Normal "";
              Client.json_of := Normal (JObj [("access_token", JStr "tok_123")]) |}
           (JObj [("access_token", JStr "tok_123")]) sdk_closed
           eq_refl eq_refl eq_refl eq_refl eq_refl eq_refl eq_refl eq_refl).
Defined.

Lemma getGuildInfo_first_match_witness :
  truthy z_truthy (Client.accessToken signed_in) = true
  /\ ClientApi.present (ClientApi.guildId in_guild_two) = true
  /\ fst (ClientApi.getGuildInfo z_truthy Z_to_string in_guild_two signed_in)
     = Js guild_two
  /\ guild_two <> JNull.
Proof.
  split; [ reflexivity | split; [ reflexivity | ] ].
  apply (proj2 (@getGuildInfo_first_match Z z_truthy Z_to_string in_guild_two
                  signed_in
                  {| Client.status := 200; Client.text := Normal "";
                     Client.json_of := Normal (JArr [guild_one; guild_two; guild_two_again]) |}
                  [guild_one; guild_two; guild_two_again] guild_two
                  eq_refl eq_refl eq_refl eq_refl eq_refl)).
  exists [guild_one], [guild_two_again].
  split; [ reflexivity | split; [ reflexivity | ] ].
  constructor; [ | constructor ].
  exists (Js (JStr "g1")). split; [ reflexivity | discriminate ].
Defined.



Lemma no_token_no_guild_request_witness :
  Client.authenticate_called
    (snd (snd (setup_from (token_endpoint_says 500) Client.initial_session))) = false
  /\ ClientApi.getGuildInfo z_truthy Z_to_string in_guild_two
       (fst (snd (setup_from (token_endpoint_says 500) Client.initial_session)))
     = (Js JNull, []).
Proof.
  split; [ reflexivity | ].
  exact (@no_token_no_guild_request Z z_truthy Z_to_string "1234567890"
           in_guild_two (token_endpoint_says 500) eq_refl).
Defined.

Lemma guild_request_carries_token_witness :
  "tok_123" <> ""
  /\ exists rest,
       snd (ClientApi.getGuildInfo z_truthy Z_to_string in_guild_two
              (fst (snd (setup_from (host_with_token authenticated)
                           Client.initial_session))))
         = ClientApi.ApiFetch ClientApi.guilds_url "Bearer tok_123"
             (ClientApi.fetch_authorized in_guild_two ClientApi.guilds_url
                "Bearer tok_123") :: rest
       /\ Forall (fun e => match e with
                           | ClientApi.ApiFetch _ _ _ => False
                           | _ => True
                           end) rest.
Proof.
  assert (Htoken : "tok_123" <> "") by discriminate.
  split; [ exact Htoken | ].
  exact (@guild_request_carries_token Z z_truthy Z_to_string "1234567890"
           in_guild_two (host_with_token authenticated) Client.initial_session
           (Js (JObj [("code", JStr "validcode")])) (Js (JStr "validcode"))
           "tok_123"
           {| Client.status := 200; Client.text := Normal "";
              Client.json_of := Normal (JObj [("access_token", JStr "tok_123")]) |}
           (JObj [("access_token", JStr "tok_123")])
           eq_refl eq_refl eq_refl eq_refl eq_refl eq_refl eq_refl Htoken eq_refl).
Defined.

Lemma validateEnv_valid_starts_server_witness :
  Cli.valid (Cli.validateEnv (project (env_file "1234567890123" "s3cr3t-s3cr3t")) "/app")
    = true
  /\ exists cfg : config Z,
       load_config parse_decimal (env_file "1234567890123" "s3cr3t-s3cr3t") = Some cfg
       /\ env_file "1234567890123" "s3cr3t-s3cr3t" "VITE_CLIENT_ID" = Some (clientId cfg)
       /\ env_file "1234567890123" "s3cr3t-s3cr3t" "CLIENT_SECRET"
          = Some (clientSecret cfg).
Proof.
  split; [ reflexivity | ].
  exact (@validateEnv_valid_starts_server
           (project (env_file "1234567890123" "s3cr3t-s3cr3t")) "/app"
           (Some (env_file "1234567890123" "s3cr3t-s3cr3t"))
           Z parse_decimal (env_file "1234567890123" "s3cr3t-s3cr3t")
           eq_refl eq_refl eq_refl eq_refl).
Defined.

Lemma wizard_credentials_pass_validateEnv_witness :
  Cli.validate_client_id "1234567890123" = Cli.Accepted
  /\ Cli.validate_client_secret "s3cr3t-s3cr3t" = Cli.Accepted
  /\ Cli.valid (Cli.validateEnv (project (env_file "1234567890123" "s3cr3t-s3cr3t")) "/app")
     = true.
Proof.
  split; [ reflexivity | split; [ reflexivity | ] ].
  exact (proj1 (@wizard_credentials_pass_validateEnv
                  (project (env_file "1234567890123" "s3cr3t-s3cr3t")) "/app"
                  (env_file "1234567890123" "s3cr3t-s3cr3t")
                  "1234567890123" "s3cr3t-s3cr3t"
                  eq_refl eq_refl eq_refl eq_refl eq_refl eq_refl eq_refl eq_refl)).
Defined.

Lemma validateEnv_valid_passes_check_env_witness :
  Cli.valid (Cli.validateEnv (project (env_file "1234567890123" "s3cr3t-s3cr3t")) "/app")
    = true
  /\ snd (Cli.checkEnvironment (project (env_file "1234567890123" "s3cr3t-s3cr3t")) "/app")
     = None.
Proof.
  split; [ reflexivity | ].
  exact (@validateEnv_valid_passes_check_env
           (project (env_file "1234567890123" "s3cr3t-s3cr3t")) "/app" eq_refl).
Defined.

Lemma env_file_agrees :
  forall (id s1 s2 key : string),
    key <> "CLIENT_SECRET" -> env_file id s1 key = env_file id s2 key.
Proof.
  intros id s1 s2 key Hkey. unfold env_file.
  destruct (key =? "VITE_CLIENT_ID")%string; [ reflexivity | ].
  destruct (String.eqb_spec key "CLIENT_SECRET"); [ contradiction | reflexivity ].
Qed.

Lemma checkEnvironment_masks_secret_witness :
  Cli.is_placeholder ("abcd" ++ "-first-" ++ "wxyz") = false
  /\ Cli.is_placeholder ("abcd" ++ "-second-secret-" ++ "wxyz") = false
  /\ Cli.checkEnvironment
       (Cli.with_env (project (fun _ => None))
          (env_file "1234567890123" ("abcd" ++ "-first-" ++ "wxyz"))) "/app"
     = Cli.checkEnvironment
         (Cli.with_env (project (fun _ => None))
            (env_file "1234567890123" ("abcd" ++ "-second-secret-" ++ "wxyz"))) "/app".
Proof.
  split; [ reflexivity | split; [ reflexivity | ] ].
  exact (@checkEnvironment_masks_secret (project (fun _ => None)) "/app"
           (env_file "1234567890123" ("abcd" ++ "-first-" ++ "wxyz"))
           (env_file "1234567890123" ("abcd" ++ "-second-secret-" ++ "wxyz"))
           "abcd" "-first-" "-second-secret-" "wxyz"
           eq_refl eq_refl eq_refl eq_refl eq_refl eq_refl
           (env_file_agrees "1234567890123" _ _)).
Defined.

Lemma checkEnvironment_shows_short_secret_witness :
  Cli.not_configured (Some "abcd") = false
  /\ In (Cli.Green, "✓ CLIENT_SECRET: abcd...abcd")
        (fst (Cli.checkEnvironment
                (Cli.with_env (project (fun _ => None))
                   (env_file "1234567890123" "abcd")) "/app")).
Proof.
  split; [ reflexivity | ].
  refine (@checkEnvironment_shows_short_secret (project (fun _ => None)) "/app"
            (env_file "1234567890123" "abcd") "abcd" eq_refl eq_refl eq_refl _).
  cbn. lia.
Defined.

End MoreInstances.
